(** * FinBot workers: the per-user agent, the categorizer and the insight analyzer

    A shallow embedding of [workers/src/durable-objects/UserAgent.ts],
    [workers/src/services/categorizer.ts] and
    [workers/src/services/insights.ts].

    Modelling conventions.
    - A JavaScript [number] is an exact rational ([Q]); rounding of IEEE
      doubles, [NaN] and the infinities are outside the model, except in
      [generatePatterns], where a division by zero is made explicit.
    - A JavaScript string is a [string] of 8-bit code units.
    - The hosted model, the clock, the id generator, [JSON.parse] and
      [Date.prototype.getDay] are platform services: they are the fields of
      a [Platform] record over which every statement is quantified.
    - An [async] method is a computation in the monad [M], which threads the
      agent ([this.state], the durable storage and the counters of the
      platform calls made so far) and can throw. *)

From Stdlib Require Import List String Ascii Bool Arith Lia ZArith QArith
  Qround Lqa DecimalString Sorted Permutation.
Import ListNotations.

Local Open Scope string_scope.
Local Open Scope list_scope.
Local Open Scope nat_scope.

(** ** JavaScript strings *)

Module JsString.

Definition code (c : ascii) : nat := nat_of_ascii c.

(** [WhiteSpace] and [LineTerminator] code units below 256: what [\s]
    matches and what [trim] removes. *)
Definition is_space (c : ascii) : bool :=
  let n := code c in
  (n =? 9) || (n =? 10) || (n =? 11) || (n =? 12) || (n =? 13)
  || (n =? 32) || (n =? 160).

Definition is_digit (c : ascii) : bool :=
  let n := code c in (48 <=? n) && (n <=? 57).

(** [.] without the [s] flag: anything but a line terminator. *)
Definition is_dot (c : ascii) : bool :=
  let n := code c in negb ((n =? 10) || (n =? 13)).

Definition to_lower (c : ascii) : ascii :=
  let n := code c in
  if (65 <=? n) && (n <=? 90) then ascii_of_nat (n + 32) else c.

(** A literal character of a pattern compiled with the [i] flag. *)
Definition ci (x : ascii) : ascii -> bool :=
  fun c => Ascii.eqb (to_lower c) (to_lower x).

Definition one_of (cs : list ascii) : ascii -> bool :=
  fun c => existsb (Ascii.eqb c) cs.

Fixpoint trim_start (s : list ascii) : list ascii :=
  match s with
  | c :: s' => if is_space c then trim_start s' else s
  | [] => []
  end.

Definition trim_end (s : list ascii) : list ascii :=
  rev (trim_start (rev s)).

Definition trim_chars (s : list ascii) : list ascii :=
  trim_end (trim_start s).

(** [s.trim()] *)
Definition trim (s : string) : string :=
  string_of_list_ascii (trim_chars (list_ascii_of_string s)).

(** [s.endsWith(t)] *)
Definition endsWith (s t : string) : bool :=
  let n := String.length s in
  let m := String.length t in
  (m <=? n) && String.eqb (substring (n - m) m s) t.

(** [s.includes(t)] *)
Definition includes (s t : string) : bool :=
  match index 0 t s with
  | Some _ => true
  | None => match t with EmptyString => true | _ => false end
  end.

(** [s.split('T')[0]]: the text before the first [sep]. *)
Fixpoint before_char (sep : ascii) (s : string) : string :=
  match s with
  | EmptyString => EmptyString
  | String c s' =>
      if Ascii.eqb c sep then EmptyString else String c (before_char sep s')
  end.

(** A string used as a condition: only the empty string is falsy. *)
Definition truthy (s : string) : bool :=
  negb (String.eqb s "").

(** An optional string property used as a condition. *)
Definition truthy_opt (o : option string) : bool :=
  match o with
  | Some s => truthy s
  | None => false
  end.

End JsString.

(** ** Regular expressions

    A backtracking matcher with the priorities of ECMAScript: alternatives
    left to right, greedy quantifiers longest first, lazy ones shortest
    first, and the leftmost start position wins. *)

Module RegExp.

Inductive regex : Type :=
| Empty : regex
| Chr : (ascii -> bool) -> regex
| Seq : regex -> regex -> regex
| Alt : regex -> regex -> regex
| Star : bool -> regex -> regex      (* [true]: greedy, [false]: lazy *)
| Group : nat -> regex -> regex      (* capturing group number [i] *)
| AtEnd : regex.                     (* [$] without the [m] flag *)

Definition captures := list (nat * list ascii).

Fixpoint capture (i : nat) (cs : captures) : option (list ascii) :=
  match cs with
  | [] => None
  | (j, v) :: cs' => if Nat.eqb i j then Some v else capture i cs'
  end.

Section Matcher.
Context {R : Type}.

Definition orelse (a : option R) (b : unit -> option R) : option R :=
  match a with
  | Some x => Some x
  | None => b tt
  end.

(** [run r s cs k]: match [r] at the front of [s], then continue with
    [k] on the rest; [None] makes the matcher backtrack. An iteration
    of a quantifier that consumes nothing is rejected, as in
    ECMAScript, so the length of the input bounds the iterations. *)
Fixpoint run (r : regex) (s : list ascii) (cs : captures)
    (k : list ascii -> captures -> option R) {struct r} : option R :=
  match r with
  | Empty => k s cs
  | Chr p =>
      match s with
      | c :: s' => if p c then k s' cs else None
      | [] => None
      end
  | Seq r1 r2 => run r1 s cs (fun s1 cs1 => run r2 s1 cs1 k)
  | Alt r1 r2 => orelse (run r1 s cs k) (fun _ => run r2 s cs k)
  | Star greedy r1 =>
      (fix iterate (n : nat) (s0 : list ascii) (cs0 : captures)
           {struct n} : option R :=
         match n with
         | O => k s0 cs0
         | S n' =>
             let again (_ : unit) :=
               run r1 s0 cs0 (fun s1 cs1 =>
                 if List.length s1 <? List.length s0 then iterate n' s1 cs1
                 else None) in
             if greedy then orelse (again tt) (fun _ => k s0 cs0)
             else orelse (k s0 cs0) again
         end) (List.length s) s cs
  | Group i r1 =>
      run r1 s cs (fun s1 cs1 =>
        k s1 ((i, firstn (List.length s - List.length s1) s) :: cs1))
  | AtEnd =>
      match s with
      | [] => k s cs
      | _ :: _ => None
      end
  end.
End Matcher.

(** Derived forms. *)
Definition Plus (greedy : bool) (r : regex) : regex := Seq r (Star greedy r).
Definition Opt (r : regex) : regex := Alt r Empty.
Definition Lit (s : string) : regex :=
  fold_right (fun c r => Seq (Chr (Ascii.eqb c)) r) Empty
    (list_ascii_of_string s).
Definition LitI (s : string) : regex :=
  fold_right (fun c r => Seq (Chr (JsString.ci c)) r) Empty
    (list_ascii_of_string s).
Fixpoint AltOf (rs : list regex) : regex :=
  match rs with
  | [] => Empty
  | [r] => r
  | r :: rs' => Alt r (AltOf rs')
  end.

(** The result of a successful match. *)
Record MatchResult : Type := {
  before : list ascii;     (* the input before the match *)
  rest : list ascii;       (* the input after the match *)
  groups : captures
}.

(** [re.exec(s)] for a pattern without the [g] flag: the start positions
    are tried from left to right. [skipped] holds, reversed, the input
    before the current position. *)
Fixpoint exec_from (r : regex) (skipped s : list ascii) : option MatchResult :=
  match run r s [] (fun s1 cs => Some (s1, cs)) with
  | Some (s1, cs) =>
      Some {| before := rev skipped; rest := s1; groups := cs |}
  | None =>
      match s with
      | [] => None
      | c :: s' => exec_from r (c :: skipped) s'
      end
  end.

Definition exec (r : regex) (s : string) : option MatchResult :=
  exec_from r [] (list_ascii_of_string s).

(** [match[i]] *)
Definition group (m : MatchResult) (i : nat) : option string :=
  option_map string_of_list_ascii (capture i (groups m)).

(** [s.replace(re, '')] for a pattern without the [g] flag. *)
Definition remove_first (r : regex) (s : string) : string :=
  match exec r s with
  | Some m => string_of_list_ascii (before m ++ rest m)
  | None => s
  end.

(** [s.split(re)[0]]: the separators used here cannot match the empty
    string, so the first piece is the text before the first match. *)
Definition split_head (r : regex) (s : string) : string :=
  match exec r s with
  | Some m => string_of_list_ascii (before m)
  | None => s
  end.

(** [s.replace(re, '')] for a pattern with the [g] flag, whose matches
    are never empty here: after a match the scan resumes behind it. *)
Fixpoint remove_all_from (r : regex) (fuel : nat) (s : list ascii)
    : list ascii :=
  match fuel with
  | O => s
  | S fuel' =>
      match s with
      | [] => []
      | c :: s' =>
          match run r s [] (fun s1 _ => Some s1) with
          | Some s1 =>
              if List.length s1 <? List.length s then remove_all_from r fuel' s1
              else c :: remove_all_from r fuel' s'
          | None => c :: remove_all_from r fuel' s'
          end
      end
  end.

Definition remove_all (r : regex) (s : string) : string :=
  let cs := list_ascii_of_string s in
  string_of_list_ascii (remove_all_from r (List.length cs) cs).

End RegExp.

(** ** JavaScript numbers *)

Module JsNumber.

Local Open Scope Q_scope.

(** A number used as a condition: zero is falsy. *)
Definition truthy (q : Q) : bool := negb (Qeq_bool q 0).

(** [a > b] *)
Definition gt (a b : Q) : bool := negb (Qle_bool a b).

(** [Math.round]: the nearest integer, halves upwards. *)
Definition round (q : Q) : Z := Qfloor (q + (1 # 2)).

(** An integer printed in decimal, as in a template literal. *)
Definition show_int (z : Z) : string :=
  NilZero.string_of_int (Z.to_int z).

(** The value of a division whose divisor may be zero. *)
Inductive extended (A : Type) : Type :=
| Finite : A -> extended A
| PlusInfinity : extended A
| MinusInfinity : extended A
| NotANumber : extended A.
Arguments Finite {A} _.
Arguments PlusInfinity {A}.
Arguments MinusInfinity {A}.
Arguments NotANumber {A}.

(** [a / b] *)
Definition divide (a b : Q) : extended Q :=
  if Qeq_bool b 0 then
    match a ?= 0 with
    | Gt => PlusInfinity
    | Lt => MinusInfinity
    | Eq => NotANumber
    end
  else Finite (a / b).

(** [Math.round(x * 100)] *)
Definition percent (x : extended Q) : extended Z :=
  match x with
  | Finite q => Finite (round (q * 100))
  | PlusInfinity => PlusInfinity
  | MinusInfinity => MinusInfinity
  | NotANumber => NotANumber
  end.

Definition show_extended (x : extended Z) : string :=
  match x with
  | Finite z => show_int z
  | PlusInfinity => "Infinity"
  | MinusInfinity => "-Infinity"
  | NotANumber => "NaN"
  end.

(** [x > n] for an integer [n] *)
Definition exceeds (x : extended Z) (n : Z) : bool :=
  match x with
  | Finite z => (n <? z)%Z
  | PlusInfinity => true
  | MinusInfinity | NotANumber => false
  end.

(** [parseFloat] on decimal digits with an optional fraction, the only
    shape the amount groups of the chat patterns can capture; [None] is
    [NaN]. *)
Definition digit_value (c : ascii) : Z := Z.of_nat (JsString.code c - 48).

Fixpoint digits (acc : Z) (n : nat) (s : list ascii) : Z * nat * list ascii :=
  match s with
  | c :: s' =>
      if JsString.is_digit c
      then digits (10 * acc + digit_value c)%Z (S n) s'
      else (acc, n, s)
  | [] => (acc, n, s)
  end.

Definition parseFloat (s : string) : option Q :=
  let cs := JsString.trim_start (list_ascii_of_string s) in
  let '(int_part, n, after) := digits 0 0%nat cs in
  let '(frac, k) :=
    match after with
    | "."%char :: more => let '(f, k, _) := digits 0 0%nat more in (f, k)
    | _ => (0%Z, 0%nat)
    end in
  if ((n =? 0) && (k =? 0))%nat then None
  else Some (Qred (inject_Z int_part + (frac # Pos.pow 10 (Pos.of_nat k))))%Q.

End JsNumber.

(** ** Plain objects used as string-keyed tables

    [Record<string, number>]: own properties in creation order. A write to
    an existing key keeps its place. [Object.entries] and [Object.keys]
    list the keys that are array indices first, in ascending numeric
    order, then the other keys in creation order. Keys that name a member
    of [Object.prototype] (such as [constructor] or [__proto__]) are not
    modelled: a read of such a key finds the inherited member. *)

Module JsObject.

Definition t := list (string * Q).

Definition empty : t := [].

Fixpoint get (k : string) (o : t) : option Q :=
  match o with
  | [] => None
  | (k', v) :: o' => if String.eqb k k' then Some v else get k o'
  end.

Fixpoint set (k : string) (v : Q) (o : t) : t :=
  match o with
  | [] => [(k, v)]
  | (k', v') :: o' =>
      if String.eqb k k' then (k', v) :: o' else (k', v') :: set k v o'
  end.

(** The numeric value of a key that is an array index: a canonical
    decimal numeral below 2^32 - 1. *)
Definition array_index (k : string) : option N :=
  let cs := list_ascii_of_string k in
  match cs with
  | [] => None
  | c :: cs' =>
      if forallb JsString.is_digit cs
         && negb (Ascii.eqb c "0" && negb (List.length cs' =? 0))
         && (List.length cs <=? 10)
      then
        let '(v, _, _) := JsNumber.digits 0 0 cs in
        if (v <? 4294967295)%Z then Some (Z.to_N v) else None
      else None
  end.

Definition is_array_index (k : string) : bool :=
  match array_index k with Some _ => true | None => false end.

Fixpoint insert_index (e : N * (string * Q)) (l : list (N * (string * Q)))
    : list (N * (string * Q)) :=
  match l with
  | [] => [e]
  | e' :: l' =>
      if (fst e <=? fst e')%N then e :: l else e' :: insert_index e l'
  end.

Definition index_entries (o : t) : list (N * (string * Q)) :=
  fold_right
    (fun kv acc =>
       match array_index (fst kv) with
       | Some n => insert_index (n, kv) acc
       | None => acc
       end) [] o.

Definition entries (o : t) : list (string * Q) :=
  map snd (index_entries o)
  ++ filter (fun kv => negb (is_array_index (fst kv))) o.

Definition keys (o : t) : list string := map fst (entries o).



End JsObject.

(** ** Arrays *)

Module JsArray.

Section Sort.
Context {A : Type} (compare : A -> A -> Q).

(** [x] goes in front of the first element it does not have to follow,
    so elements that compare equal keep their order. *)
Fixpoint insert (x : A) (l : list A) : list A :=
  match l with
  | [] => [x]
  | y :: l' =>
      if Qle_bool (compare x y) 0 then x :: l else y :: insert x l'
  end.

(** [Array.prototype.sort(compare)], which is stable. *)
Definition sort (l : list A) : list A := fold_right insert [] l.
End Sort.

(** [l.slice(-n)]: the last [n] elements. *)
Definition slice_last {A : Type} (n : nat) (l : list A) : list A :=
  skipn (List.length l - n) l.

(** [l.slice(0, n)] *)
Definition slice_first {A : Type} (n : nat) (l : list A) : list A :=
  firstn n l.

(** [l.reduce((sum, e) => sum + f(e), 0)] *)
Definition sum {A : Type} (f : A -> Q) (l : list A) : Q :=
  fold_left (fun acc e => (acc + f e)%Q) l 0%Q.

End JsArray.

(** ** Data model ([types/index.ts]) *)

Record Expense : Type := {
  id : string;
  amount : Q;
  merchant : string;
  category : string;
  date : option string;     (* absent when a direct add carried none *)
  notes : option string
}.

(** [Omit<Expense, 'id'>] *)
Record NewExpense : Type := {
  new_amount : Q;
  new_merchant : string;
  new_category : string;
  new_date : option string;
  new_notes : option string
}.

(** The properties [amount] and [merchant] of a value, [None] when the
    value has no such property. *)
Record Fields : Type := {
  field_amount : option Q;
  field_merchant : option string
}.

Inductive Role : Type := user | assistant.

(** What a message holds: text, or the structured reply of the model. *)
Inductive Content : Type :=
| Text : string -> Content
| Structured : Fields -> Content.

Record Message : Type := {
  role : Role;
  content : Content;
  timestamp : string
}.

Record Preferences : Type := {
  currency : string;
  categories : list string
}.

Record UserState : Type := {
  userId : string;
  expenses : list Expense;
  conversations : list Message;
  preferences : Preferences
}.

Record SpendingContext : Type := {
  totalSpent : Q;
  topCategory : string;
  topAmount : Q;
  recentExpenses : list Expense;
  expenseCount : nat
}.

Inductive PatternType : Type := time_of_day | day_of_week | by_category.

Record SpendingPattern : Type := {
  pattern_type : PatternType;
  insight : string;
  recommendation : string
}.

Record Trends : Type := {
  weekend : Q;                        (* [weekendVsWeekday.weekend] *)
  weekday : Q;                        (* [weekendVsWeekday.weekday] *)
  categoryDistribution : JsObject.t
}.

Record SpendingPersonality : Type := {
  personality : string;
  description : string;
  patterns : list SpendingPattern;
  trends : Trends
}.

(** ** The platform *)

(** The [response] property of what the hosted model returns: a string, a
    non-null object, or neither ([undefined], [null]). *)
Inductive AiReply : Type :=
| ReplyText : string -> AiReply
| ReplyObject : Fields -> AiReply
| ReplyAbsent : AiReply.

Inductive AiOutcome : Type :=
| AiReturns : AiReply -> AiOutcome
| AiThrows : string -> AiOutcome.        (* the message of the error *)

(** The data each prompt is built from. *)
Inductive Prompt : Type :=
| CategorizePrompt (merchant : string) (amount : Q) (notes : option string)
| ParsePrompt (text : string)
| ChatPrompt (context : SpendingContext) (breakdown : list (string * Q))
    (message : string)
| PersonalityPrompt (weekend weekday : Q) (top : list (string * Q))
| DescriptionPrompt (personality : string) (weekend weekday : Q)
    (top : option string).

(** What [JSON.parse] returns: a falsy value ([null], [false], [0], the
    empty string), or a truthy one seen through its properties. *)
Inductive Parsed : Type :=
| Falsy : Parsed
| Truthy : Fields -> Parsed.

Record Platform : Type := {
  (** the [n]-th call of [env.AI.run], on the given prompt *)
  AI_run : nat -> Prompt -> AiOutcome;
  (** the [n]-th reading of [new Date().toISOString()] *)
  now : nat -> string;
  (** the [n]-th value of [exp_${Date.now()}_${random}] *)
  fresh_id : nat -> string;
  (** [JSON.parse]; [None] is a [SyntaxError] *)
  JSON_parse : string -> option Parsed;
  (** [new Date(s).getDay()]; [None] is [NaN] *)
  getDay : string -> option nat
}.

(** ** The agent and its monad *)

Record Agent : Type := {
  state : UserState;                 (* [this.state] *)
  storage : option UserState;        (* [ctx.storage], key ['state'] *)
  ai_calls : nat;
  clock_reads : nat;
  ids_made : nat
}.

Inductive Result (A : Type) : Type :=
| Ok : A -> Result A
| Throw : string -> Result A.
Arguments Ok {A} _.
Arguments Throw {A} _.

Definition M (A : Type) : Type := Platform -> Agent -> Result A * Agent.

Definition ret {A} (a : A) : M A := fun _ ag => (Ok a, ag).

Definition bind {A B} (m : M A) (f : A -> M B) : M B :=
  fun p ag =>
    match m p ag with
    | (Ok a, ag') => f a p ag'
    | (Throw e, ag') => (Throw e, ag')
    end.

Definition throw {A} (e : string) : M A := fun _ ag => (Throw e, ag).

(** [try { m } catch (error) { handler(error.message) }] *)
Definition try_catch {A} (m : M A) (handler : string -> M A) : M A :=
  fun p ag =>
    match m p ag with
    | (Ok a, ag') => (Ok a, ag')
    | (Throw e, ag') => handler e p ag'
    end.

Declare Scope agent_scope.
Delimit Scope agent_scope with agent.
Notation "x <- m ;; k" := (bind m (fun x => k))
  (at level 61, m at next level, right associativity) : agent_scope.
Notation "m ;; k" := (bind m (fun _ => k))
  (at level 61, right associativity) : agent_scope.
Local Open Scope agent_scope.

Definition get_state : M UserState := fun _ ag => (Ok (state ag), ag).

Definition put_state (st : UserState) : M unit :=
  fun _ ag =>
    (Ok tt, {| state := st; storage := storage ag; ai_calls := ai_calls ag;
               clock_reads := clock_reads ag; ids_made := ids_made ag |}).

Definition storage_get : M (option UserState) :=
  fun _ ag => (Ok (storage ag), ag).

Definition storage_put (st : UserState) : M unit :=
  fun _ ag =>
    (Ok tt, {| state := state ag; storage := Some st;
               ai_calls := ai_calls ag; clock_reads := clock_reads ag;
               ids_made := ids_made ag |}).

(** [await ai.run(model, prompt)] *)
Definition ai_run (prompt : Prompt) : M AiReply :=
  fun p ag =>
    let ag' := {| state := state ag; storage := storage ag;
                  ai_calls := S (ai_calls ag);
                  clock_reads := clock_reads ag; ids_made := ids_made ag |} in
    match AI_run p (ai_calls ag) prompt with
    | AiReturns r => (Ok r, ag')
    | AiThrows e => (Throw e, ag')
    end.

(** [new Date().toISOString()] *)
Definition toISOString_now : M string :=
  fun p ag =>
    (Ok (now p (clock_reads ag)),
     {| state := state ag; storage := storage ag; ai_calls := ai_calls ag;
        clock_reads := S (clock_reads ag); ids_made := ids_made ag |}).

Definition new_id : M string :=
  fun p ag =>
    (Ok (fresh_id p (ids_made ag)),
     {| state := state ag; storage := storage ag; ai_calls := ai_calls ag;
        clock_reads := clock_reads ag; ids_made := S (ids_made ag) |}).

Definition json_parse (s : string) : M Parsed :=
  fun p ag =>
    match JSON_parse p s with
    | Some v => (Ok v, ag)
    | None => (Throw "SyntaxError", ag)
    end.

Definition with_platform {A} (f : Platform -> A) : M A :=
  fun p ag => (Ok (f p), ag).

(** [new Date().toISOString().split('T')[0]] *)
Definition today : M string :=
  iso <- toISOString_now ;;
  ret (JsString.before_char "T" iso).

(** ** The expense categorizer ([services/categorizer.ts]) *)

Definition validCategories : list string :=
  ["Food"; "Transport"; "Shopping"; "Bills"; "Other"].

(** [list.includes(s)] *)
Definition array_includes (l : list string) (s : string) : bool :=
  existsb (String.eqb s) l.

Record Categorization : Type := {
  assigned : string;        (* [category] *)
  confidence : Q
}.

(** A method called on a reply that is not a string throws a [TypeError]. *)
Definition reply_text (r : AiReply) : M string :=
  match r with
  | ReplyText s => ret s
  | ReplyObject _ | ReplyAbsent => throw "TypeError"
  end.

Definition categorizeExpense (merchant : string) (amount : Q)
    (notes : option string) : M Categorization :=
  try_catch
    (response <- ai_run (CategorizePrompt merchant amount notes) ;;
     text <- reply_text response ;;
     let category := JsString.trim text in
     if array_includes validCategories category
     then ret {| assigned := category; confidence := 95 # 100 |}
     else ret {| assigned := "Other"; confidence := 1 # 2 |})
    (fun _ => ret {| assigned := "Other"; confidence := 3 # 10 |}).

(** [`Auto-categorized as ${category} (${Math.round(confidence * 100)}% confidence)`] *)
Definition auto_note (c : Categorization) : string :=
  "Auto-categorized as " ++ assigned c ++ " ("
  ++ JsNumber.show_int (JsNumber.round (confidence c * 100)%Q)
  ++ "% confidence)".

(** ** The insight analyzer ([services/insights.ts]) *)

(** [categoryTotals[e.category] = (categoryTotals[e.category] || 0) + e.amount] *)
Definition add_to_category (totals : JsObject.t) (e : Expense) : JsObject.t :=
  let current :=
    match JsObject.get (category e) totals with
    | Some v => if JsNumber.truthy v then v else 0%Q
    | None => 0%Q
    end in
  JsObject.set (category e) (current + amount e)%Q totals.

Definition categoryTotals (es : list Expense) : JsObject.t :=
  fold_left add_to_category es JsObject.empty.

(** [(a, b) => b - a] on the values of two entries *)
Definition by_value_descending (x y : string * Q) : Q := (snd y - snd x)%Q.

Definition day_of (p : Platform) (e : Expense) : option nat :=
  match date e with
  | Some d => getDay p d
  | None => None
  end.

Definition is_weekend (p : Platform) (e : Expense) : bool :=
  match day_of p e with
  | Some day => (day =? 0) || (day =? 6)
  | None => false
  end.

Definition is_weekday (p : Platform) (e : Expense) : bool :=
  match day_of p e with
  | Some day => (1 <=? day) && (day <=? 5)
  | None => false
  end.

Definition calculateTrends (p : Platform) (es : list Expense) : Trends :=
  {| weekend := JsArray.sum amount (filter (is_weekend p) es);
     weekday := JsArray.sum amount (filter (is_weekday p) es);
     categoryDistribution := categoryTotals es |}.

Definition generatePatterns (es : list Expense) (t : Trends)
    : list SpendingPattern :=
  let first :=
    if JsNumber.gt (weekend t) (weekday t * (13 # 10))%Q then
      [ {| pattern_type := day_of_week;
           insight :=
             "You spend "
             ++ JsNumber.show_extended
                  (JsNumber.percent
                     (JsNumber.divide (weekend t) (weekend t + weekday t)%Q))
             ++ "% of your money on weekends";
           recommendation :=
             "Consider setting a weekend spending cap to balance fun with savings"
        |} ]
    else [] in
  let second :=
    match JsArray.sort by_value_descending
            (JsObject.entries (categoryDistribution t)) with
    | (top, total) :: _ =>
        let percentage :=
          JsNumber.percent
            (JsNumber.divide total (JsArray.sum amount es)) in
        [ {| pattern_type := by_category;
             insight :=
               top ++ " is " ++ JsNumber.show_extended percentage
               ++ "% of your spending";
             recommendation :=
               if JsNumber.exceeds percentage 40
               then "Try diversifying your spending or reducing " ++ top
                    ++ " expenses"
               else "Your " ++ top ++ " spending looks balanced"
          |} ]
    | [] => []
    end in
  first ++ second.

Definition getting_started : SpendingPersonality :=
  {| personality := "Getting Started";
     description := "Add more expenses to see your spending personality!";
     patterns := [];
     trends := {| weekend := 0; weekday := 0;
                  categoryDistribution := JsObject.empty |} |}.

Definition analyzeSpendingPatterns (es : list Expense) : M SpendingPersonality :=
  if List.length es <? 5 then ret getting_started
  else
    t <- with_platform (fun p => calculateTrends p es) ;;
    response <-
      ai_run (PersonalityPrompt (weekend t) (weekday t)
                (JsArray.slice_first 3
                   (JsArray.sort by_value_descending
                      (JsObject.entries (categoryDistribution t))))) ;;
    text <- reply_text response ;;
    let personality := JsString.trim text in
    descResponse <-
      ai_run (DescriptionPrompt personality (weekend t) (weekday t)
                (hd_error (JsObject.keys (categoryDistribution t)))) ;;
    descText <- reply_text descResponse ;;
    let description := JsString.trim descText in
    ret {| personality := personality;
           description := description;
           patterns := generatePatterns es t;
           trends := t |}.

(** ** The chat extractor (the patterns of the chat route) *)

Module ChatExtractor.
Import RegExp.

Definition Seqs (rs : list regex) : regex := fold_right Seq Empty rs.

Definition space : regex := Chr JsString.is_space.
Definition digit : regex := Chr JsString.is_digit.
Definition dollar : regex := Chr (Ascii.eqb "$").

(** [\d+(?:\.\d{2})?] *)
Definition amount_re : regex :=
  Seq (Plus true digit) (Opt (Seqs [Chr (Ascii.eqb "."); digit; digit])).

(** [(?:at|on|for)] *)
Definition preposition : regex := AltOf [LitI "at"; LitI "on"; LitI "for"].

(** A pattern: its source text, as [toString] prints it, and its syntax. *)
Record ChatPattern : Type := {
  source : string;
  syntax : regex
}.

Definition pattern1 : ChatPattern :=
  {| source :=
       "/(?:spent|paid|bought|cost|costs)\s*\$?(\d+(?:\.\d{2})?)\s*(?:at|on|for)?\s*(.+)/i";
     syntax :=
       Seqs [ AltOf [LitI "spent"; LitI "paid"; LitI "bought"; LitI "cost";
                     LitI "costs"];
              Star true space; Opt dollar; Group 1 amount_re;
              Star true space; Opt preposition; Star true space;
              Group 2 (Plus true (Chr JsString.is_dot)) ] |}.

Definition pattern2 : ChatPattern :=
  {| source := "/\$(\d+(?:\.\d{2})?)\s*(?:at|on|for)\s*(.+)/i";
     syntax :=
       Seqs [ dollar; Group 1 amount_re; Star true space; preposition;
              Star true space; Group 2 (Plus true (Chr JsString.is_dot)) ] |}.

Definition pattern3 : ChatPattern :=
  {| source := "/(?:bought|got)\s+(.+?)\s+for\s+\$?(\d+(?:\.\d{2})?)/i";
     syntax :=
       Seqs [ AltOf [LitI "bought"; LitI "got"]; Plus true space;
              Group 1 (Plus false (Chr JsString.is_dot)); Plus true space;
              LitI "for"; Plus true space; Opt dollar; Group 2 amount_re ] |}.

Definition expensePatterns : list ChatPattern :=
  [pattern1; pattern2; pattern3].

(** [/[.,!?;]+$/] *)
Definition trailing_punctuation : regex :=
  Seq (Plus true (Chr (JsString.one_of ["."; ","; "!"; "?"; ";"]%char)))
      AtEnd.

(** [/\s+(today|yesterday|just now)/i] *)
Definition temporal_qualifier : regex :=
  Seq (Plus true space)
      (Group 1 (AltOf [LitI "today"; LitI "yesterday"; LitI "just now"])).

(** [merchant.replace(/[.,!?;]+$/, '').split(/\s+(today|yesterday|just now)/i)[0].trim()] *)
Definition clean_merchant (merchant : string) : string :=
  JsString.trim
    (split_head temporal_qualifier
       (remove_first trailing_punctuation merchant)).

(** The amount and the merchant read from a match, in the order the
    pattern has them. [None]: a group is undefined and [trim] throws. The
    amount is [None] when [parseFloat] gives [NaN]. *)
Definition read_match (p : ChatPattern) (m : MatchResult)
    : option (option Q * string) :=
  let parse (g : option string) : option Q :=
    match g with
    | Some s => JsNumber.parseFloat s
    | None => None
    end in
  if JsString.includes (source p) "bought|got" then
    match group m 1 with
    | Some g1 => Some (parse (group m 2), JsString.trim g1)
    | None => None
    end
  else
    match group m 2 with
    | Some g2 => Some (parse (group m 1), JsString.trim g2)
    | None => None
    end.

(** What one pattern detects in a message: [Some] when it matches and
    the cleaned result passes [amount > 0 && merchant.length > 0]. With
    [None] the loop goes on to the next pattern. *)
Definition detect (p : ChatPattern) (message : string) : option (Q * string) :=
  match exec (syntax p) message with
  | Some m =>
      match read_match p m with
      | Some (Some amount, merchant) =>
          let merchant := clean_merchant merchant in
          if JsNumber.gt amount 0 && (0 <? String.length merchant)
          then Some (amount, merchant)
          else None
      | _ => None
      end
  | None => None
  end.

(** The loop over the patterns, without its effects: the first pattern
    that detects an expense wins. *)
Fixpoint first_detected (ps : list ChatPattern) (message : string)
    : option (Q * string) :=
  match ps with
  | [] => None
  | p :: ps' =>
      match detect p message with
      | Some found => Some found
      | None => first_detected ps' message
      end
  end.

End ChatExtractor.

(** ** The per-user agent ([durable-objects/UserAgent.ts]) *)

Definition with_expenses (st : UserState) (es : list Expense) : UserState :=
  {| userId := userId st; expenses := es;
     conversations := conversations st; preferences := preferences st |}.

Definition with_conversations (st : UserState) (ms : list Message) : UserState :=
  {| userId := userId st; expenses := expenses st;
     conversations := ms; preferences := preferences st |}.

Definition with_userId (st : UserState) (u : string) : UserState :=
  {| userId := u; expenses := expenses st;
     conversations := conversations st; preferences := preferences st |}.

(** The state the constructor builds. *)
Definition initial_state : UserState :=
  {| userId := "";
     expenses := [];
     conversations := [];
     preferences :=
       {| currency := "USD";
          categories := ["Food"; "Transport"; "Shopping"; "Bills"; "Other"] |} |}.

Definition saveState : M unit :=
  st <- get_state ;;
  storage_put st.

Definition initialize (uid : string) : M unit :=
  stored <- storage_get ;;
  match stored with
  | Some st => put_state st
  | None =>
      st <- get_state ;;
      put_state (with_userId st uid) ;;
      saveState
  end.

Definition addExpense (expense : NewExpense) : M Expense :=
  i <- new_id ;;
  let newExpense :=
    {| id := i;
       amount := new_amount expense;
       merchant := new_merchant expense;
       category := new_category expense;
       date := new_date expense;
       notes := new_notes expense |} in
  st <- get_state ;;
  put_state (with_expenses st (expenses st ++ [newExpense])) ;;
  saveState ;;
  ret newExpense.

Record Filters : Type := {
  startDate : option string;
  endDate : option string;
  filter_category : option string     (* [category] *)
}.

(** [e.date >= start]: false when the expense has no date. *)
Definition date_from (start : string) (e : Expense) : bool :=
  match date e with
  | Some d => String.leb start d
  | None => false
  end.

(** [e.date <= stop] *)
Definition date_until (stop : string) (e : Expense) : bool :=
  match date e with
  | Some d => String.leb d stop
  | None => false
  end.

(** [if (filters?.field) { filtered = filtered.filter(test) }] *)
Definition filter_when (field : option string) (test : string -> Expense -> bool)
    (l : list Expense) : list Expense :=
  match field with
  | Some v => if JsString.truthy v then filter (test v) l else l
  | None => l
  end.

Definition getExpenses (filters : option Filters) : M (list Expense) :=
  st <- get_state ;;
  let filtered := expenses st in
  let filtered :=
    filter_when (match filters with Some f => startDate f | None => None end)
      date_from filtered in
  let filtered :=
    filter_when (match filters with Some f => endDate f | None => None end)
      date_until filtered in
  let filtered :=
    filter_when
      (match filters with Some f => filter_category f | None => None end)
      (fun c e => String.eqb (category e) c) filtered in
  ret filtered.

Definition addMessage (r : Role) (c : Content) : M Message :=
  t <- toISOString_now ;;
  let message := {| role := r; content := c; timestamp := t |} in
  st <- get_state ;;
  let pushed := conversations st ++ [message] in
  put_state
    (with_conversations st
       (if 20 <? List.length pushed then JsArray.slice_last 20 pushed
        else pushed)) ;;
  saveState ;;
  ret message.

Definition getConversations : M (list Message) :=
  st <- get_state ;;
  ret (conversations st).

Definition getSpendingContext : M SpendingContext :=
  st <- get_state ;;
  let es := expenses st in
  let total := JsArray.sum amount es in
  let topCategory :=
    hd_error (JsArray.sort by_value_descending
                (JsObject.entries (categoryTotals es))) in
  let recent := JsArray.slice_last 5 es in
  ret {| totalSpent := total;
         topCategory :=
           match topCategory with Some (c, _) => c | None => "Unknown" end;
         topAmount :=
           match topCategory with Some (_, a) => a | None => 0%Q end;
         recentExpenses := recent;
         expenseCount := List.length es |}.

Definition chatWithAI (userMessage : string) (context : SpendingContext)
    : M Content :=
  st <- get_state ;;
  let categoryBreakdown := categoryTotals (expenses st) in
  try_catch
    (response <-
       ai_run (ChatPrompt context (JsObject.entries categoryBreakdown)
                 userMessage) ;;
     match response with
     | ReplyText s =>
         if JsString.truthy s then ret (Text s)
         else ret (Text "I'm having trouble responding right now. Please try again.")
     | ReplyObject o => ret (Structured o)
     | ReplyAbsent =>
         ret (Text "I'm having trouble responding right now. Please try again.")
     end)
    (fun _ => ret (Text "Sorry, I encountered an error. Please try again.")).

(** [/```json\n?/g] and [/```\n?/g] *)
Definition fence_json : RegExp.regex :=
  RegExp.Seq (RegExp.Lit "```json")
    (RegExp.Opt (RegExp.Chr (Ascii.eqb (ascii_of_nat 10)))).

Definition fence : RegExp.regex :=
  RegExp.Seq (RegExp.Lit "```")
    (RegExp.Opt (RegExp.Chr (Ascii.eqb (ascii_of_nat 10)))).

Definition strip_fences (reply : string) : string :=
  RegExp.remove_all fence (RegExp.remove_all fence_json (JsString.trim reply)).

Definition quote : string := String (ascii_of_nat 34) "".

Definition parse_error : string :=
  "Could not parse expense. Try format: " ++ quote ++ "Spent $45 at Chipotle"
  ++ quote.

Definition format_error : string := "Could not understand that expense format.".

(** The [amount] and the [merchant] of a parsed reply, when the reply and
    both properties are truthy. *)
Definition usable (parsed : Parsed) : option (Q * string) :=
  match parsed with
  | Truthy {| field_amount := Some a; field_merchant := Some m |} =>
      if JsNumber.truthy a && JsString.truthy m then Some (a, m) else None
  | _ => None
  end.

Definition parseAndAddExpense (text : string) : M Expense :=
  parseResponse <- ai_run (ParsePrompt text) ;;
  parsed <-
    try_catch
      (match parseResponse with
       | ReplyObject o => ret (Truthy o)
       | ReplyText s => json_parse (strip_fences s)
       | ReplyAbsent => throw "Unexpected response type from AI"
       end)
      (fun _ => throw parse_error) ;;
  match usable parsed with
  | None => throw format_error
  | Some (parsed_amount, parsed_merchant) =>
      c <- categorizeExpense parsed_merchant parsed_amount None ;;
      d <- today ;;
      addExpense {| new_amount := parsed_amount;
                    new_merchant := parsed_merchant;
                    new_category := assigned c;
                    new_date := Some d;
                    new_notes := Some (auto_note c) |}
  end.

Definition getInsights : M SpendingPersonality :=
  st <- get_state ;;
  analyzeSpendingPatterns (expenses st).

(** *** Requests and responses *)

(** The body of [POST /expenses]: [{merchant, amount, notes?, date?, category?}] *)
Record ExpenseBody : Type := {
  body_merchant : string;
  body_amount : Q;
  body_notes : option string;
  body_date : option string;
  body_category : option string
}.

Inductive Payload : Type :=
| ExpensePayload : ExpenseBody -> Payload
| TextPayload : string -> Payload           (* [{text}] *)
| MessagePayload : string -> Payload        (* [{message}] *)
| NoPayload : Payload.

Record Request : Type := {
  path : string;                    (* [url.pathname] *)
  method : string;
  userId_param : option string;     (* [url.searchParams.get('userId')] *)
  payload : Payload
}.

Inductive Response : Type :=
| ExpenseAdded : Expense -> Response              (* [{success: true, expense}] *)
| ExpenseList : list Expense -> Response          (* [{expenses}] *)
| BadRequest : string -> Response                 (* 400, [{success: false, error}] *)
| ChatReply : Content -> bool -> Response         (* [{response, expenseAdded}] *)
| Insights : SpendingPersonality -> Response
| NotFound : Response.                            (* 404 *)

(** The body of the request, which each route reads at the type it
    expects; a body of another shape is outside the typed model. *)
Definition expense_body (req : Request) : M ExpenseBody :=
  match payload req with
  | ExpensePayload b => ret b
  | _ => throw "TypeError"
  end.

Definition text_body (req : Request) : M string :=
  match payload req with
  | TextPayload t => ret t
  | _ => throw "TypeError"
  end.

Definition message_body (req : Request) : M string :=
  match payload req with
  | MessagePayload m => ret m
  | _ => throw "TypeError"
  end.

(** [body.category], when it is truthy. *)
Definition given_category (body : ExpenseBody) : option string :=
  match body_category body with
  | Some c => if JsString.truthy c then Some c else None
  | None => None
  end.

(** The route [POST /expenses]: the body is categorized when it carries
    no category, and stored as it is otherwise. *)
Definition post_expense (body : ExpenseBody) : M Response :=
  filled <-
    match given_category body with
    | None =>
        c <- categorizeExpense (body_merchant body) (body_amount body) None ;;
        ret {| new_amount := body_amount body;
               new_merchant := body_merchant body;
               new_category := assigned c;
               new_date := body_date body;
               new_notes :=
                 if negb (JsString.truthy_opt (body_notes body))
                 then Some (auto_note c) else body_notes body |}
    | Some c =>
        ret {| new_amount := body_amount body;
               new_merchant := body_merchant body;
               new_category := c;
               new_date := body_date body;
               new_notes := body_notes body |}
    end ;;
  expense <- addExpense filled ;;
  ret (ExpenseAdded expense).

(** The loop of the chat route over [expensePatterns]: [true] when an
    expense was added. An error thrown while an expense is categorized
    and stored is swallowed, and the loop goes on. *)
Fixpoint detect_and_add (ps : list ChatExtractor.ChatPattern) (message : string)
    : M bool :=
  match ps with
  | [] => ret false
  | p :: ps' =>
      match ChatExtractor.detect p message with
      | Some (found_amount, found_merchant) =>
          try_catch
            (c <- categorizeExpense found_merchant found_amount None ;;
             d <- today ;;
             addExpense {| new_amount := found_amount;
                           new_merchant := found_merchant;
                           new_category := assigned c;
                           new_date := Some d;
                           new_notes := Some "Added via chat" |} ;;
             ret true)
            (fun _ => detect_and_add ps' message)
      | None => detect_and_add ps' message
      end
  end.

Definition newline : string := String (ascii_of_nat 10) "".

(** The instruction appended to a message from which an expense was saved. *)
Definition saved_note : string :=
  "[Note: I detected and saved an expense from this message. "
  ++ "Acknowledge this briefly and provide relevant spending advice.]".

Definition chat_route (message : string) : M Response :=
  addMessage user (Text message) ;;
  expenseAdded <- detect_and_add ChatExtractor.expensePatterns message ;;
  context <- getSpendingContext ;;
  aiResponse <-
    (if expenseAdded then
       chatWithAI
         (message ++ newline ++ newline
          ++ saved_note)
         context
     else chatWithAI message context) ;;
  addMessage assistant aiResponse ;;
  ret (ChatReply aiResponse expenseAdded).

Definition parse_route (text : string) : M Response :=
  try_catch
    (expense <- parseAndAddExpense text ;;
     ret (ExpenseAdded expense))
    (fun message => ret (BadRequest message)).

(** [url.searchParams.get('userId') || 'default'] *)
Definition request_user (req : Request) : string :=
  match userId_param req with
  | Some u => if JsString.truthy u then u else "default"
  | None => "default"
  end.

Definition fetch (req : Request) : M Response :=
  let uid := request_user req in
  initialize uid ;;
  if JsString.endsWith (path req) "/expenses" && String.eqb (method req) "POST"
  then body <- expense_body req ;; post_expense body
  else if JsString.endsWith (path req) "/expenses"
          && String.eqb (method req) "GET"
  then es <- getExpenses None ;; ret (ExpenseList es)
  else if JsString.endsWith (path req) "/expenses/parse"
          && String.eqb (method req) "POST"
  then text <- text_body req ;; parse_route text
  else if JsString.endsWith (path req) "/chat"
          && String.eqb (method req) "POST"
  then message <- message_body req ;; chat_route message
  else if JsString.endsWith (path req) "/insights"
          && String.eqb (method req) "GET"
  then p <- getInsights ;; ret (Insights p)
  else ret NotFound.

(** Messages appended one after the other. *)
Fixpoint addMessages (l : list (Role * Content)) : M (list Message) :=
  match l with
  | [] => ret []
  | (r, c) :: l' =>
      m <- addMessage r c ;;
      ms <- addMessages l' ;;
      ret (m :: ms)
  end.

(** ** Sample inputs *)

Module Sample.

(** A platform whose model answers every prompt with the same text. *)
Definition platform (reply : string) : Platform :=
  {| AI_run := fun _ _ => AiReturns (ReplyText reply);
     now := fun _ => "2024-05-04T10:00:00.000Z";
     fresh_id := fun n => ("exp_" ++ JsNumber.show_int (Z.of_nat n))%string;
     JSON_parse := fun _ => None;
     getDay := fun _ => Some 6 |}.

(** A platform whose model is down. *)
Definition offline : Platform :=
  {| AI_run := fun _ _ => AiThrows "network error";
     now := fun _ => "2024-05-04T10:00:00.000Z";
     fresh_id := fun n => ("exp_" ++ JsNumber.show_int (Z.of_nat n))%string;
     JSON_parse := fun _ => None;
     getDay := fun _ => Some 6 |}.

Definition agent_with (st : UserState) : Agent :=
  {| state := st; storage := Some st; ai_calls := 0; clock_reads := 0;
     ids_made := 0 |}.

(** The agent as constructed, before any request. *)
Definition new_agent : Agent :=
  {| state := initial_state; storage := None; ai_calls := 0;
     clock_reads := 0; ids_made := 0 |}.

Definition expense (i c : string) (a : Q) : Expense :=
  {| id := i; amount := a; merchant := "shop"; category := c;
     date := Some "2024-05-04"; notes := None |}.

Definition state_of (es : list Expense) : UserState :=
  with_expenses (with_userId initial_state "demo") es.

Definition five_expenses : list Expense :=
  [expense "exp_0" "Food" 12; expense "exp_1" "Bills" 80;
   expense "exp_2" "Food" 7; expense "exp_3" "Transport" 30;
   expense "exp_4" "Other" 5].

Definition add_body (c : option string) : ExpenseBody :=
  {| body_merchant := "Rolex"; body_amount := 5000;
     body_notes := None; body_date := Some "2024-05-04";
     body_category := c |}.

(** [POST /api/user/expenses?userId=demo] with the given category. *)
Definition add_request (c : option string) : Request :=
  {| path := "/api/user/expenses";
     method := "POST";
     userId_param := Some "demo";
     payload := ExpensePayload (add_body c) |}.

End Sample.

(** ** Vocabulary of the statements *)

(** The agent after one more call to the model. *)
Definition counted (ag : Agent) : Agent :=
  {| state := state ag; storage := storage ag; ai_calls := S (ai_calls ag);
     clock_reads := clock_reads ag; ids_made := ids_made ag |}.

(** The labels the personality prompt asks the model to choose from. *)
Definition personalities : list string :=
  ["Weekend Warrior"; "Stress Spender"; "Late Night Buyer";
   "Consistent Budgeter"; "Impulse Shopper"].

(** The prompts of the two calls. *)
Definition personality_prompt (p : Platform) (es : list Expense) : Prompt :=
  let t := calculateTrends p es in
  PersonalityPrompt (weekend t) (weekday t)
    (JsArray.slice_first 3
       (JsArray.sort by_value_descending
          (JsObject.entries (categoryDistribution t)))).

Definition description_prompt (p : Platform) (es : list Expense)
    (label : string) : Prompt :=
  let t := calculateTrends p es in
  DescriptionPrompt label (weekend t) (weekday t)
    (hd_error (JsObject.keys (categoryDistribution t))).

(** The agent once [initialize] has run. *)
Definition initialized (uid : string) (ag : Agent) : Agent :=
  match storage ag with
  | Some st =>
      {| state := st; storage := Some st; ai_calls := ai_calls ag;
         clock_reads := clock_reads ag; ids_made := ids_made ag |}
  | None =>
      {| state := with_userId (state ag) uid;
         storage := Some (with_userId (state ag) uid);
         ai_calls := ai_calls ag; clock_reads := clock_reads ag;
         ids_made := ids_made ag |}
  end.

(** The expense [addExpense] makes of its argument, and the agent once
    it is stored. *)
Definition stored_as (p : Platform) (ag : Agent) (x : NewExpense) : Expense :=
  {| id := fresh_id p (ids_made ag);
     amount := new_amount x;
     merchant := new_merchant x;
     category := new_category x;
     date := new_date x;
     notes := new_notes x |}.

Definition with_added (p : Platform) (ag : Agent) (x : NewExpense) : Agent :=
  let st := with_expenses (state ag) (expenses (state ag) ++ [stored_as p ag x]) in
  {| state := st; storage := Some st; ai_calls := ai_calls ag;
     clock_reads := clock_reads ag; ids_made := S (ids_made ag) |}.

(** A value has an amount and a merchant, and both are truthy. *)
Definition fields_present (f : Fields) : Prop :=
  exists a m,
    field_amount f = Some a /\ ~ (a == 0)%Q
    /\ field_merchant f = Some m /\ m <> "".

(** The outcome of the parse prompt gives no expense: the call failed, the
    reply is neither an object nor a text, the text without its fences is
    not parseable, or the value lacks a truthy amount or merchant. *)
Definition rejected (p : Platform) (o : AiOutcome) : Prop :=
  match o with
  | AiThrows _ => True
  | AiReturns ReplyAbsent => True
  | AiReturns (ReplyObject f) => ~ fields_present f
  | AiReturns (ReplyText s) =>
      match JSON_parse p (strip_fences s) with
      | None => True
      | Some Falsy => True
      | Some (Truthy f) => ~ fields_present f
      end
  end.

(** A filter field that is given and not the empty string. *)
Definition non_empty (field : option string) : option string :=
  match field with
  | Some v => if JsString.truthy v then Some v else None
  | None => None
  end.

(** The expenses a filter set selects: a date within the inclusive range
    and a category equal to the filter, for each filter that is given,
    where [given] says which fields count as given. *)
Definition selects (given : option string -> option string)
    (filters : option Filters) (e : Expense) : bool :=
  let field (get : Filters -> option string) :=
    given (match filters with Some f => get f | None => None end) in
  (match field startDate with Some v => date_from v e | None => true end)
  && (match field endDate with Some v => date_until v e | None => true end)
  && (match field filter_category with
      | Some v => String.eqb (category e) v
      | None => true
      end).




(** ** Vocabulary of the further properties *)

(** The durable storage holds the state of the agent. *)
Definition synced (ag : Agent) : Prop := storage ag = Some (state ag).

(** Two agents with the same state and storage: they differ at most in
    the counters of the platform calls. *)
Definition same_store (ag ag' : Agent) : Prop :=
  state ag' = state ag /\ storage ag' = storage ag.

(** [ag'] is [ag] after [addExpense] stored [e], platform calls apart. *)
Definition stores_one (p : Platform) (ag ag' : Agent) (e : Expense) : Prop :=
  exists ag1 x,
    same_store ag ag1 /\ ag' = with_added p ag1 x /\ e = stored_as p ag1 x.

(** The instance after the platform has evicted it from memory and
    constructed it again: the state is the constructor's, the storage
    is kept. *)
Definition restarted (ag : Agent) : Agent :=
  {| state := initial_state; storage := storage ag; ai_calls := ai_calls ag;
     clock_reads := clock_reads ag; ids_made := ids_made ag |}.

(** The request is for the route with this path suffix and method. *)
Definition routed (req : Request) (suffix verb : string) : bool :=
  JsString.endsWith (path req) suffix && String.eqb (method req) verb.

(** What a request may do to an agent that [initialize] left as [ag0]:
    it appends at most one expense, whose category is one of the five
    names unless the request is a direct add that carries this category;
    it keeps the user id and the preferences; it leaves the storage
    holding the state. *)
Definition request_effect (req : Request) (ag0 ag' : Agent) : Prop :=
  exists added,
    expenses (state ag') = expenses (state ag0) ++ added
    /\ List.length added <= 1
    /\ (forall e, In e added ->
          In (category e) validCategories
          \/ (routed req "/expenses" "POST" = true
              /\ exists body, payload req = ExpensePayload body
                              /\ given_category body = Some (category e)))
    /\ (conversations (state ag') = conversations (state ag0)
        \/ exists m1 m2,
             conversations (state ag') =
               JsArray.slice_last 20 (conversations (state ag0) ++ [m1; m2]))
    /\ userId (state ag') = userId (state ag0)
    /\ preferences (state ag') = preferences (state ag0)
    /\ synced ag'.

(** What the agent holds at rest: the stored state, or the state of the
    constructor while nothing is stored. *)
Definition persisted (ag : Agent) : UserState :=
  match storage ag with
  | Some st => st
  | None => state ag
  end.

(** What happens to an instance over time: it handles a request, or the
    platform evicts it from memory. *)
Inductive Event : Type :=
| Handle : Request -> Event
| Evict : Event.

Definition after_event (p : Platform) (ag : Agent) (ev : Event) : Agent :=
  match ev with
  | Handle req => snd (fetch req p ag)
  | Evict => restarted ag
  end.

Definition after_events (p : Platform) (ag : Agent) (evs : list Event)
    : Agent :=
  fold_left (after_event p) evs ag.

Definition handled (evs : list Event) : list Request :=
  flat_map (fun ev => match ev with Handle req => [req] | Evict => [] end) evs.

(** Every expense has one of the five categories. *)
Definition categories_valid (es : list Expense) : Prop :=
  forall e, In e es -> In (category e) validCategories.

(** A direct add carries no category, an empty one, or one of the five. *)
Definition adds_valid_category (req : Request) : Prop :=
  forall body c,
    payload req = ExpensePayload body ->
    given_category body = Some c -> In c validCategories.

(** An agent the code can leave behind: nothing is held in memory that
    the storage lacks, so an agent without storage is as constructed. *)
Definition at_rest (ag : Agent) : Prop :=
  match storage ag with
  | Some st => True
  | None => state ag = initial_state
  end.



(** [s1] is what is left of [s] after some of its front is consumed. *)
Definition rest_of (s1 s : list ascii) : Prop := exists pre, s = pre ++ s1.




(** The backtick, of which fences are made. *)
Definition backtick : ascii := "`"%char.

(** The text contains no backtick. *)
Definition fence_free (s : list ascii) : Prop :=
  Forall (fun c => Ascii.eqb backtick c = false) s.

(** ** The Worker ([index.ts]) *)

(** The [Headers] of a response: names are kept in lower case, one value
    per name. *)
Module Headers.

Definition t : Type := list (string * string).

Definition lower (name : string) : string :=
  string_of_list_ascii (map JsString.to_lower (list_ascii_of_string name)).

Definition get (name : string) (h : t) : option string :=
  match find (fun kv => String.eqb (fst kv) (lower name)) h with
  | Some kv => Some (snd kv)
  | None => None
  end.

Definition remove (name : string) (h : t) : t :=
  filter (fun kv => negb (String.eqb (fst kv) (lower name))) h.

(** [headers.set(name, value)]: the value of the first header of this
    name is replaced and the others of this name go; without one the
    header is appended. *)
Fixpoint set (name value : string) (h : t) : t :=
  match h with
  | [] => [(lower name, value)]
  | kv :: rest =>
      if String.eqb (fst kv) (lower name)
      then (fst kv, value) :: remove name rest
      else kv :: set name value rest
  end.

(** [new Headers(init)] for an object [init]. *)
Definition of_entries (init : list (string * string)) : t :=
  fold_left (fun h kv => set (fst kv) (snd kv) h) init [].

End Headers.

Inductive Body : Type :=
| Null : Body
| Plain : string -> Body
| Json : Response -> Body.

Record WorkerResponse : Type := {
  status : nat;
  headers : Headers.t;
  body : Body
}.

(** The responses of the agent as the Worker receives them:
    [Response.json(...)], with status 400 for a failed parse, and
    [new Response('Not Found', { status: 404 })]. *)
Definition response_of (r : Response) : WorkerResponse :=
  match r with
  | NotFound =>
      {| status := 404;
         headers := [("content-type", "text/plain;charset=UTF-8")];
         body := Plain "Not Found" |}
  | BadRequest _ =>
      {| status := 400;
         headers := [("content-type", "application/json")];
         body := Json r |}
  | _ =>
      {| status := 200;
         headers := [("content-type", "application/json")];
         body := Json r |}
  end.

Definition corsHeaders : list (string * string) :=
  [("Access-Control-Allow-Origin", "*");
   ("Access-Control-Allow-Methods", "GET, POST, OPTIONS");
   ("Access-Control-Allow-Headers", "Content-Type")].

(** [new Response(response.body, response)] followed by
    [newResponse.headers.set(key, value)] for each entry of
    [corsHeaders]. *)
Definition with_cors (r : WorkerResponse) : WorkerResponse :=
  {| status := status r;
     headers := fold_left (fun h kv => Headers.set (fst kv) (snd kv) h)
                  corsHeaders (headers r);
     body := body r |}.

(** The instances of the [USER_AGENT] namespace, one per name
    ([idFromName]). *)
Definition Namespace : Type := string -> Agent.

Definition update (ns : Namespace) (name : string) (ag : Agent) : Namespace :=
  fun n => if String.eqb n name then ag else ns n.

(** [url.searchParams.get('userId') || 'demo'] *)
Definition instance_name (req : Request) : string :=
  match userId_param req with
  | Some u => if JsString.truthy u then u else "demo"
  | None => "demo"
  end.

(** The [fetch] handler of the Worker. An error thrown by the agent
    leaves the handler as it is. *)
Definition worker_fetch (req : Request) (p : Platform) (ns : Namespace)
    : Result WorkerResponse * Namespace :=
  if String.eqb (method req) "OPTIONS"
  then (Ok {| status := 200; headers := Headers.of_entries corsHeaders;
              body := Null |}, ns)
  else if String.prefix "/api/user/" (path req)
  then
    let name := instance_name req in
    match fetch req p (ns name) with
    | (Ok response, ag') =>
        (Ok (with_cors (response_of response)), update ns name ag')
    | (Throw e, ag') => (Throw e, update ns name ag')
    end
  else (Ok {| status := 404;
              headers := [("content-type", "text/plain;charset=UTF-8")];
              body := Plain "Not Found" |}, ns).

(** The namespace after the Worker has handled the requests in turn. *)
Definition worker_run (p : Platform) (ns : Namespace) (reqs : list Request)
    : Namespace :=
  fold_left (fun ns req => snd (worker_fetch req p ns)) reqs ns.

(** The Worker hands the request to the instance of this name. *)
Definition reaches (name : string) (req : Request) : bool :=
  negb (String.eqb (method req) "OPTIONS")
  && String.prefix "/api/user/" (path req)
  && String.eqb (instance_name req) name.

(** * Properties *)

(** [H] places a string in a list of other strings: absurd. *)
Ltac not_listed H :=
  cbn in H; repeat (destruct H as [H | H]; [discriminate H |]); exact H.

(** ** Running the monad *)

Lemma bind_ok {A B} (m : M A) (f : A -> M B) p ag a ag' :
  m p ag = (Ok a, ag') -> bind m f p ag = f a p ag'.
Proof. intros H. unfold bind. rewrite H. reflexivity. Qed.

Lemma bind_throw {A B} (m : M A) (f : A -> M B) p ag e ag' :
  m p ag = (Throw e, ag') -> bind m f p ag = (Throw e, ag').
Proof. intros H. unfold bind. rewrite H. reflexivity. Qed.

(** One step of a computation whose first part runs as [H] says. *)
Ltac step H := erewrite bind_ok by exact H.

Lemma ai_run_returns prompt p ag r :
  AI_run p (ai_calls ag) prompt = AiReturns r ->
  ai_run prompt p ag = (Ok r, counted ag).
Proof. intros H. unfold ai_run. rewrite H. reflexivity. Qed.

Lemma ai_run_throws prompt p ag e :
  AI_run p (ai_calls ag) prompt = AiThrows e ->
  ai_run prompt p ag = (Throw e, counted ag).
Proof. intros H. unfold ai_run. rewrite H. reflexivity. Qed.

Lemma initialize_run uid p ag :
  initialize uid p ag = (Ok tt, initialized uid ag).
Proof.
  unfold initialize, initialized, bind, storage_get.
  destruct (storage ag) eqn:Hstored; [| reflexivity].
  unfold put_state. rewrite Hstored. reflexivity.
Qed.

Lemma addExpense_run x p ag :
  addExpense x p ag = (Ok (stored_as p ag x), with_added p ag x).
Proof. reflexivity. Qed.

Lemma truthy_nonempty (s : string) : JsString.truthy s = true <-> s <> "".
Proof.
  unfold JsString.truthy. rewrite negb_true_iff. split.
  - intros H Heq. subst. discriminate.
  - intros H. apply String.eqb_neq. exact H.
Qed.

Lemma today_run p ag :
  today p ag =
    (Ok (JsString.before_char "T" (now p (clock_reads ag))),
     {| state := state ag; storage := storage ag; ai_calls := ai_calls ag;
        clock_reads := S (clock_reads ag); ids_made := ids_made ag |}).
Proof. reflexivity. Qed.

(** ** The categorizer *)

Lemma array_includes_In (l : list string) (s : string) :
  array_includes l s = true <-> In s l.
Proof.
  unfold array_includes. rewrite existsb_exists. split.
  - intros [x [Hin Heq]]. apply String.eqb_eq in Heq. now subst.
  - intros Hin. exists s. split; [assumption | apply String.eqb_refl].
Qed.

(** What [categorizeExpense] returns, by cases on the outcome of its one
    call to the model. *)
Lemma categorizeExpense_run merchant amount notes p ag :
  categorizeExpense merchant amount notes p ag =
    (Ok match AI_run p (ai_calls ag) (CategorizePrompt merchant amount notes) with
        | AiReturns (ReplyText s) =>
            if array_includes validCategories (JsString.trim s)
            then {| assigned := JsString.trim s; confidence := 95 # 100 |}
            else {| assigned := "Other"; confidence := 1 # 2 |}
        | _ => {| assigned := "Other"; confidence := 3 # 10 |}
        end, counted ag).
Proof.
  unfold categorizeExpense, try_catch, bind.
  destruct (AI_run p (ai_calls ag) (CategorizePrompt merchant amount notes))
    as [[s | o |] | e] eqn:Hrun.
  - rewrite (ai_run_returns _ _ _ _ Hrun). unfold reply_text, ret.
    destruct (array_includes validCategories (JsString.trim s)); reflexivity.
  - rewrite (ai_run_returns _ _ _ _ Hrun). reflexivity.
  - rewrite (ai_run_returns _ _ _ _ Hrun). reflexivity.
  - rewrite (ai_run_throws _ _ _ _ Hrun). reflexivity.
Qed.

(** The categorizer always returns, with one of the five names. *)
Lemma categorizeExpense_valid merchant amount notes p ag :
  exists c : Categorization,
    categorizeExpense merchant amount notes p ag = (Ok c, counted ag)
    /\ In (assigned c) validCategories.
Proof.
  eexists. split; [apply categorizeExpense_run |].
  destruct (AI_run p (ai_calls ag) (CategorizePrompt merchant amount notes))
    as [[s | o |] | e]; try (cbn; tauto).
  destruct (array_includes validCategories (JsString.trim s)) eqn:Hin.
  - now apply array_includes_In.
  - cbn. tauto.
Qed.


(** ** The direct add route *)

Lemma post_expense_run body p ag :
  exists e ag',
    post_expense body p ag = (Ok (ExpenseAdded e), ag')
    /\ expenses (state ag') = expenses (state ag) ++ [e]
    /\ storage ag' = Some (state ag')
    /\ merchant e = body_merchant body
    /\ amount e = body_amount body
    /\ (forall c, given_category body = Some c -> category e = c)
    /\ (given_category body = None -> In (category e) validCategories).
Proof.
  unfold post_expense.
  destruct (given_category body) as [c |] eqn:Hgiven.
  - do 2 eexists. split; [reflexivity |].
    cbn. repeat split; try reflexivity.
    + intros c' Heq. now inversion Heq.
    + discriminate.
  - destruct (categorizeExpense_valid (body_merchant body)
                (body_amount body) None p ag) as [c [Hrun Hvalid]].
    do 2 eexists. split.
    + erewrite bind_ok; [| erewrite bind_ok by exact Hrun; reflexivity].
      reflexivity.
    + cbn. repeat split; try reflexivity.
      * discriminate.
      * intros _. exact Hvalid.
Qed.

(** C1, as the code has it: [POST /expenses] stores one expense, in the
    agent and in the durable storage. When the body carries no category,
    or an empty one, the stored category is one of the five names; a
    non-empty category of the body is stored as it is. *)
Theorem post_expenses_category (req : Request) (body : ExpenseBody)
    (p : Platform) (ag : Agent) :
  JsString.endsWith (path req) "/expenses" = true ->
  method req = "POST" ->
  payload req = ExpensePayload body ->
  exists e ag',
    fetch req p ag = (Ok (ExpenseAdded e), ag')
    /\ expenses (state ag') =
         expenses (state (initialized (request_user req) ag)) ++ [e]
    /\ storage ag' = Some (state ag')
    /\ (forall c, body_category body = Some c -> c <> "" -> category e = c)
    /\ (body_category body = None \/ body_category body = Some "" ->
        In (category e) validCategories).
Proof.
  intros Hpath Hmethod Hbody.
  destruct (post_expense_run body p (initialized (request_user req) ag))
    as [e [ag' [Hrun [Hexp [Hsto [_ [_ [Hgiven Hauto]]]]]]]].
  exists e, ag'. split; [| split; [exact Hexp | split; [exact Hsto | split]]].
  - unfold fetch. fold (request_user req).
    erewrite bind_ok by apply initialize_run.
    rewrite Hpath, Hmethod. cbn [String.eqb Ascii.eqb Bool.eqb andb].
    unfold expense_body. rewrite Hbody.
    erewrite bind_ok by reflexivity. exact Hrun.
  - intros c Hc Hne. apply Hgiven. unfold given_category. rewrite Hc.
    apply truthy_nonempty in Hne. now rewrite Hne.
  - intros Hnone. apply Hauto. unfold given_category.
    destruct Hnone as [Hc | Hc]; rewrite Hc; reflexivity.
Qed.

Lemma post_expenses_category_witness :
  exists e ag',
    fetch (Sample.add_request None) (Sample.platform "Shopping")
      Sample.new_agent = (Ok (ExpenseAdded e), ag')
    /\ expenses (state ag') =
         expenses (state (initialized "demo" Sample.new_agent)) ++ [e]
    /\ storage ag' = Some (state ag')
    /\ (forall c, body_category (Sample.add_body None) = Some c ->
                  c <> "" -> category e = c)
    /\ (body_category (Sample.add_body None) = None
        \/ body_category (Sample.add_body None) = Some "" ->
        In (category e) validCategories).
Proof.
  apply (post_expenses_category (Sample.add_request None)
           (Sample.add_body None)); reflexivity.
Defined.

(** C1 as stated fails: a body that carries the category "Luxury" is
    stored with that category. *)
Lemma post_expenses_category_counterexample :
  exists e ag',
    fetch (Sample.add_request (Some "Luxury")) (Sample.platform "Shopping")
      Sample.new_agent = (Ok (ExpenseAdded e), ag')
    /\ In e (expenses (state ag'))
    /\ storage ag' = Some (state ag')
    /\ category e = "Luxury"
    /\ ~ In (category e) validCategories.
Proof.
  do 2 eexists. split; [vm_compute; reflexivity |].
  split; [left; reflexivity |].
  split; [reflexivity |].
  split; [reflexivity |].
  intros H. not_listed H.
Qed.

(** ** The bounded conversation history *)

Lemma slice_last_short {A} (n : nat) (l : list A) :
  List.length l <= n -> JsArray.slice_last n l = l.
Proof.
  intros H. unfold JsArray.slice_last.
  replace (List.length l - n) with 0 by lia. reflexivity.
Qed.

Lemma slice_last_length {A} (n : nat) (l : list A) :
  List.length (JsArray.slice_last n l) = Nat.min n (List.length l).
Proof. unfold JsArray.slice_last. rewrite length_skipn. lia. Qed.

Lemma slice_last_suffix {A} (n : nat) (l : list A) :
  firstn (List.length l - n) l ++ JsArray.slice_last n l = l.
Proof. apply firstn_skipn. Qed.

(** Truncating, appending and truncating again keeps what truncating the
    whole history keeps. *)
Lemma slice_last_app {A} (n : nat) (l l' : list A) :
  JsArray.slice_last n (JsArray.slice_last n l ++ l') =
  JsArray.slice_last n (l ++ l').
Proof.
  unfold JsArray.slice_last.
  rewrite length_app, length_skipn, length_app.
  destruct (Nat.le_gt_cases (List.length l) n) as [Hshort | Hlong].
  - replace (List.length l - n) with 0 by lia. cbn [skipn].
    f_equal. lia.
  - rewrite !skipn_app, skipn_skipn, length_skipn.
    f_equal.
    + f_equal. lia.
    + f_equal. lia.
Qed.

Lemma addMessage_run r c p ag :
  let m := {| role := r; content := c; timestamp := now p (clock_reads ag) |} in
  let st := with_conversations (state ag)
              (JsArray.slice_last 20 (conversations (state ag) ++ [m])) in
  addMessage r c p ag =
    (Ok m, {| state := st; storage := Some st; ai_calls := ai_calls ag;
              clock_reads := S (clock_reads ag); ids_made := ids_made ag |}).
Proof.
  cbn zeta. unfold addMessage, bind, toISOString_now, get_state, put_state,
    saveState, storage_put, ret, bind. cbn [state storage ai_calls clock_reads ids_made].
  destruct (20 <? List.length (conversations (state ag) ++ _)) eqn:Hlong.
  - reflexivity.
  - apply Nat.ltb_ge in Hlong. rewrite (slice_last_short 20) by exact Hlong.
    reflexivity.
Qed.

Lemma addMessages_run l p ag :
  exists ms ag',
    addMessages l p ag = (Ok ms, ag')
    /\ map (fun m => (role m, content m)) ms = l
    /\ expenses (state ag') = expenses (state ag)
    /\ (l <> [] ->
        conversations (state ag') =
          JsArray.slice_last 20 (conversations (state ag) ++ ms)
        /\ storage ag' = Some (state ag')).
Proof.
  revert ag. induction l as [| [r c] l IH]; intros ag.
  - exists [], ag. repeat split; congruence.
  - pose proof (addMessage_run r c p ag) as Hone. cbn zeta in Hone.
    set (m := {| role := r; content := c;
                 timestamp := now p (clock_reads ag) |}) in *.
    match type of Hone with _ = (_, ?a) => set (ag1 := a) in * end.
    destruct (IH ag1) as [ms [ag' [Hrun [Hmap [Hexp Hconv]]]]].
    exists (m :: ms), ag'.
    split; [| split; [| split]].
    + cbn [addMessages]. step Hone.
      step Hrun. reflexivity.
    + cbn [map]. rewrite Hmap. reflexivity.
    + rewrite Hexp. reflexivity.
    + intros _. destruct l as [| x l].
      * destruct ms; [| discriminate].
        cbn in Hrun. inversion Hrun; subst ag'. split; reflexivity.
      * destruct Hconv as [Hconv Hsto]; [discriminate |].
        split; [| exact Hsto].
        rewrite Hconv. subst ag1. cbn [state conversations with_conversations].
        rewrite slice_last_app. rewrite <- app_assoc. reflexivity.
Qed.

(** C3: from any agent and for any non-empty sequence of [addMessage]
    calls, the conversation list ends with at most 20 entries, and these
    are the last entries, in order, of the earlier conversation followed
    by the appended messages; the appended messages carry the given roles
    and contents in the order of the calls. *)
Theorem conversations_bounded (r : Role) (c : Content)
    (l : list (Role * Content)) (p : Platform) (ag : Agent) :
  exists ms ag' dropped,
    addMessages ((r, c) :: l) p ag = (Ok ms, ag')
    /\ map (fun m => (role m, content m)) ms = (r, c) :: l
    /\ List.length (conversations (state ag')) <= 20
    /\ conversations (state ag) ++ ms = dropped ++ conversations (state ag')
    /\ List.length (conversations (state ag')) =
         Nat.min 20 (List.length (conversations (state ag) ++ ms)).
Proof.
  destruct (addMessages_run ((r, c) :: l) p ag)
    as [ms [ag' [Hrun [Hmap [_ Hconv]]]]].
  destruct Hconv as [Hconv _]; [discriminate |].
  exists ms, ag',
    (firstn (List.length (conversations (state ag) ++ ms) - 20)
       (conversations (state ag) ++ ms)).
  split; [exact Hrun |]. split; [exact Hmap |].
  rewrite Hconv. split; [| split].
  - rewrite slice_last_length. lia.
  - symmetry. apply slice_last_suffix.
  - apply slice_last_length.
Qed.

(** ** The chat extractor *)


Lemma chatWithAI_run message context p ag :
  exists reply, chatWithAI message context p ag = (Ok reply, counted ag).
Proof.
  unfold chatWithAI, bind, get_state, try_catch, ai_run.
  destruct (AI_run p (ai_calls ag) _) as [[s | o |] | e];
    [destruct (JsString.truthy s) | | |]; eexists; reflexivity.
Qed.


Lemma getSpendingContext_pure p ag :
  exists context, getSpendingContext p ag = (Ok context, ag).
Proof.
  eexists. unfold getSpendingContext, bind, get_state, ret. reflexivity.
Qed.



(** ** Parsing free text into an expense *)

Lemma usable_some parsed a m :
  usable parsed = Some (a, m) ->
  exists f, parsed = Truthy f /\ fields_present f
            /\ field_amount f = Some a /\ field_merchant f = Some m.
Proof.
  unfold usable. destruct parsed as [| [[a' |] [m' |]]]; try discriminate.
  destruct (JsNumber.truthy a') eqn:Ha; [| discriminate].
  destruct (JsString.truthy m') eqn:Hm; [| discriminate].
  cbn. intros Heq. inversion Heq; subst.
  eexists. split; [reflexivity |]. split; [| split; reflexivity].
  exists a, m. cbn. repeat split.
  - unfold JsNumber.truthy in Ha. apply negb_true_iff in Ha.
    intros Hzero. apply Qeq_bool_iff in Hzero. congruence.
  - apply truthy_nonempty. exact Hm.
Qed.

Lemma usable_none_fields f :
  usable (Truthy f) = None -> ~ fields_present f.
Proof.
  intros Hnone [a [m [Ha [Hnz [Hm Hne]]]]].
  destruct f as [fa fm]. cbn in Ha, Hm. subst. cbn in Hnone.
  assert (Ht : JsNumber.truthy a = true).
  { unfold JsNumber.truthy. apply negb_true_iff.
    destruct (Qeq_bool a 0) eqn:E; [| reflexivity].
    apply Qeq_bool_iff in E. contradiction. }
  apply truthy_nonempty in Hne. rewrite Ht, Hne in Hnone. discriminate.
Qed.

(** Storing a usable reply never throws. *)
Lemma parsed_expense_stored a m p ag :
  exists e ag',
    (c <- categorizeExpense m a None ;;
     d <- today ;;
     addExpense {| new_amount := a; new_merchant := m;
                   new_category := assigned c; new_date := Some d;
                   new_notes := Some (auto_note c) |}) p ag = (Ok e, ag')
    /\ expenses (state ag') = expenses (state ag) ++ [e]
    /\ amount e = a /\ merchant e = m.
Proof.
  destruct (categorizeExpense_valid m a None p ag) as [c [Hrun _]].
  do 2 eexists. split.
  - step Hrun.
    erewrite bind_ok by apply today_run.
    apply addExpense_run.
  - cbn. repeat split.
Qed.

(** What [parseAndAddExpense] does, by cases on the reply as read. *)
Lemma parseAndAddExpense_run text p ag :
  (rejected p (AI_run p (ai_calls ag) (ParsePrompt text))
   /\ exists e, parseAndAddExpense text p ag = (Throw e, counted ag))
  \/ (~ rejected p (AI_run p (ai_calls ag) (ParsePrompt text))
      /\ exists x ag',
           parseAndAddExpense text p ag = (Ok x, ag')
           /\ expenses (state ag') = expenses (state ag) ++ [x]).
Proof.
  unfold parseAndAddExpense.
  assert (Hstore : forall parsed,
            usable parsed <> None ->
            exists x ag',
              match usable parsed with
              | Some (pa, pm) =>
                  c <- categorizeExpense pm pa None ;;
                  d <- today ;;
                  addExpense {| new_amount := pa; new_merchant := pm;
                                new_category := assigned c;
                                new_date := Some d;
                                new_notes := Some (auto_note c) |}
              | None => throw format_error
              end p (counted ag) = (Ok x, ag')
              /\ expenses (state ag') = expenses (state ag) ++ [x]).
  { intros parsed Hsome. destruct (usable parsed) as [[a m] |];
      [| congruence].
    destruct (parsed_expense_stored a m p (counted ag))
      as [x [ag' [Hrun [Hexp _]]]].
    exists x, ag'. split; assumption. }
  destruct (AI_run p (ai_calls ag) (ParsePrompt text))
    as [[s | f |] | err] eqn:Hreply.
  - (* a text *)
    erewrite bind_ok by (apply ai_run_returns; exact Hreply).
    unfold rejected, try_catch, json_parse, bind.
    destruct (JSON_parse p (strip_fences s)) as [[| f] |] eqn:Hparse.
    + left. split; [exact I |]. eexists. reflexivity.
    + destruct (usable (Truthy f)) as [[a m] |] eqn:Huse.
      * right. split.
        { intros Hrej. apply Hrej.
          destruct (usable_some _ _ _ Huse) as [f' [Heq [Hpres _]]].
          now inversion Heq. }
        destruct (Hstore (Truthy f)) as [x [ag' [Hrun Hexp]]];
          [congruence |].
        rewrite Huse in Hrun. exists x, ag'. split; assumption.
      * left. split; [now apply usable_none_fields |].
        eexists. reflexivity.
    + left. split; [exact I |]. eexists. reflexivity.
  - (* an object *)
    erewrite bind_ok by (apply ai_run_returns; exact Hreply).
    unfold rejected, try_catch, bind, ret.
    destruct (usable (Truthy f)) as [[a m] |] eqn:Huse.
    + right. split.
      { intros Hrej. apply Hrej.
        destruct (usable_some _ _ _ Huse) as [f' [Heq [Hpres _]]].
        now inversion Heq. }
      destruct (Hstore (Truthy f)) as [x [ag' [Hrun Hexp]]]; [congruence |].
      rewrite Huse in Hrun. exists x, ag'. split; assumption.
    + left. split; [now apply usable_none_fields |].
      eexists. reflexivity.
  - (* neither *)
    erewrite bind_ok by (apply ai_run_returns; exact Hreply).
    left. split; [exact I |]. eexists. reflexivity.
  - (* the call failed *)
    erewrite bind_throw by (apply ai_run_throws; exact Hreply).
    left. split; [exact I |]. eexists. reflexivity.
Qed.

(** C5: [parseAndAddExpense] throws exactly when the reply is rejected:
    the call fails or returns neither an object nor a text, the text
    stripped of its fences is not parseable, the parsed value is falsy, or
    its amount or merchant is missing or falsy. When it throws, the
    state and the storage are unchanged, and the route answers 400 with
    the message of the error. *)
Theorem parseAndAddExpense_throws (text : string) (p : Platform)
    (ag : Agent) :
  ((exists e ag', parseAndAddExpense text p ag = (Throw e, ag'))
   <-> rejected p (AI_run p (ai_calls ag) (ParsePrompt text)))
  /\ (forall e ag',
        parseAndAddExpense text p ag = (Throw e, ag') ->
        state ag' = state ag
        /\ storage ag' = storage ag
        /\ parse_route text p ag = (Ok (BadRequest e), ag')).
Proof.
  destruct (parseAndAddExpense_run text p ag)
    as [[Hrej [e Hrun]] | [Hok [x [ag1 [Hrun _]]]]].
  - split.
    + split; [intros _; exact Hrej | intros _; eauto].
    + intros e' ag' Hthrow. rewrite Hrun in Hthrow. inversion Hthrow; subst.
      split; [reflexivity |]. split; [reflexivity |].
      unfold parse_route, try_catch. erewrite bind_throw by exact Hrun.
      reflexivity.
  - split.
    + split.
      * intros [e [ag' Hthrow]]. congruence.
      * intros Hrej. contradiction.
    + intros e ag' Hthrow. congruence.
Qed.

(** ** Listing expenses *)

Lemma filter_filter {A} (f g : A -> bool) (l : list A) :
  filter g (filter f l) = filter (fun x => f x && g x) l.
Proof.
  induction l as [| x l IH]; [reflexivity |].
  cbn. destruct (f x); cbn; [destruct (g x) |]; now rewrite IH.
Qed.

Lemma filter_all {A} (l : list A) : filter (fun _ => true) l = l.
Proof. induction l as [| x l IH]; [reflexivity |]. cbn. now rewrite IH. Qed.

Lemma filter_when_test field test l :
  filter_when field test l =
    filter (fun e => match non_empty field with
                     | Some v => test v e
                     | None => true
                     end) l.
Proof.
  unfold filter_when, non_empty. destruct field as [v |].
  - destruct (JsString.truthy v); [reflexivity | now rewrite filter_all].
  - now rewrite filter_all.
Qed.

Lemma getExpenses_run filters p ag :
  getExpenses filters p ag =
    (Ok (filter (selects non_empty filters) (expenses (state ag))), ag).
Proof.
  unfold getExpenses, bind, get_state, ret.
  rewrite !filter_when_test, !filter_filter.
  do 2 f_equal. apply filter_ext. intros e.
  unfold selects. destruct filters as [f |]; now rewrite ?andb_assoc.
Qed.

(** C9, as the code has it: [getExpenses] returns, in insertion order,
    the stored expenses that pass every filter that is given and not the
    empty string: a date not before [startDate], a date not after
    [endDate], a category equal to [category]. Without filters it returns
    the whole list, so that right after [addExpense] the last element of
    the listing is the expense just added; a non-empty category that no
    expense has gives the empty list. The agent is unchanged. *)
Theorem getExpenses_filtered (filters : option Filters) (p : Platform)
    (ag : Agent) :
  getExpenses filters p ag =
    (Ok (filter (selects non_empty filters) (expenses (state ag))), ag)
  /\ getExpenses None p ag = (Ok (expenses (state ag)), ag)
  /\ (forall x, exists e ag1 earlier,
        addExpense x p ag = (Ok e, ag1)
        /\ getExpenses None p ag1 = (Ok (earlier ++ [e]), ag1)
        /\ earlier = expenses (state ag)
        /\ amount e = new_amount x /\ merchant e = new_merchant x
        /\ category e = new_category x /\ date e = new_date x
        /\ notes e = new_notes x)
  /\ (forall c,
        c <> "" ->
        (forall e, In e (expenses (state ag)) -> category e <> c) ->
        getExpenses
          (Some {| startDate := None; endDate := None;
                   filter_category := Some c |}) p ag = (Ok [], ag)).
Proof.
  split; [apply getExpenses_run |]. split; [| split].
  - rewrite getExpenses_run. cbn. now rewrite filter_all.
  - intros x. exists (stored_as p ag x), (with_added p ag x),
      (expenses (state ag)).
    split; [apply addExpense_run |].
    rewrite getExpenses_run. cbn. rewrite filter_all. repeat split.
  - intros c Hne Hnone. rewrite getExpenses_run. f_equal.
    apply truthy_nonempty in Hne.
    unfold selects, non_empty. cbn. rewrite Hne.
    induction (expenses (state ag)) as [| e l IH]; [reflexivity |].
    cbn. destruct (String.eqb_spec (category e) c) as [Heq | Hneq].
    + exfalso. apply (Hnone e); [now left | exact Heq].
    + apply IH. intros e' Hin. apply Hnone. now right.
Qed.

(** C9 as stated fails: a category filter that is the empty string is
    given and matches no stored expense, yet the whole list is returned. *)
Lemma getExpenses_filtered_counterexample :
  let ag := Sample.agent_with
              (Sample.state_of [Sample.expense "exp_0" "Food" 12]) in
  let filters := Some {| startDate := None; endDate := None;
                         filter_category := Some "" |} in
  getExpenses filters Sample.offline ag
    = (Ok [Sample.expense "exp_0" "Food" 12], ag)
  /\ filter (selects (fun field => field) filters) (expenses (state ag)) = []
  /\ getExpenses filters Sample.offline ag
       <> (Ok (filter (selects (fun field => field) filters)
                 (expenses (state ag))), ag).
Proof.
  cbv zeta. split; [reflexivity |]. split; [reflexivity |].
  intros H. vm_compute in H. discriminate H.
Qed.

(** ** The spending context *)

(** *** Tables *)









(** *** Sums *)








(** *** The totals per category *)





(** *** Sorting by value *)


(** *** Enumeration of ordinary keys *)










(** *** The empty list *)

(** C10: with no stored expense, [getSpendingContext] returns the top
    category "Unknown", top amount 0, total 0, count 0 and no recent
    expense, and leaves the agent as it was. *)
Theorem getSpendingContext_empty (p : Platform) (ag : Agent) :
  expenses (state ag) = [] ->
  getSpendingContext p ag =
    (Ok {| totalSpent := 0; topCategory := "Unknown"; topAmount := 0;
           recentExpenses := []; expenseCount := 0 |}, ag).
Proof.
  intros Hempty. unfold getSpendingContext, bind, get_state, ret.
  rewrite Hempty. reflexivity.
Qed.

Lemma getSpendingContext_empty_witness :
  getSpendingContext (Sample.platform "Food") Sample.new_agent =
    (Ok {| totalSpent := 0; topCategory := "Unknown"; topAmount := 0;
           recentExpenses := []; expenseCount := 0 |}, Sample.new_agent).
Proof. apply getSpendingContext_empty. reflexivity. Defined.

(** ** The insight analyzer *)

(** C7: with fewer than five expenses, whatever they are,
    [analyzeSpendingPatterns] returns the fixed report (personality
    "Getting Started", no pattern, weekend and weekday totals 0, an empty
    category distribution) and makes no call to the model: the agent,
    with its count of model calls, is unchanged. *)
Theorem analyzeSpendingPatterns_few (es : list Expense) (p : Platform)
    (ag : Agent) :
  List.length es < 5 ->
  exists r : SpendingPersonality,
    analyzeSpendingPatterns es p ag = (Ok r, ag)
    /\ personality r = "Getting Started"
    /\ patterns r = []
    /\ weekend (trends r) = 0%Q
    /\ weekday (trends r) = 0%Q
    /\ categoryDistribution (trends r) = JsObject.empty.
Proof.
  intros Hfew. exists getting_started.
  unfold analyzeSpendingPatterns.
  apply Nat.ltb_lt in Hfew. rewrite Hfew.
  repeat split.
Qed.

Lemma analyzeSpendingPatterns_few_witness :
  exists r : SpendingPersonality,
    analyzeSpendingPatterns
      [Sample.expense "exp_0" "Food" 12; Sample.expense "exp_1" "Bills" 80]
      Sample.offline Sample.new_agent = (Ok r, Sample.new_agent)
    /\ personality r = "Getting Started"
    /\ patterns r = []
    /\ weekend (trends r) = 0%Q
    /\ weekday (trends r) = 0%Q
    /\ categoryDistribution (trends r) = JsObject.empty.
Proof. apply analyzeSpendingPatterns_few. cbn. lia. Defined.

(** C8, as the code has it: with at least five expenses, when the model
    answers both prompts with a text, the personality of the report of
    [analyzeSpendingPatterns], and so of [getInsights], is the trimmed
    answer to the first prompt, whatever it is; so it is one of the five
    labels exactly when that trimmed answer is. *)
Theorem analyzeSpendingPatterns_personality (es : list Expense)
    (p : Platform) (ag : Agent) (s d : string) :
  5 <= List.length es ->
  AI_run p (ai_calls ag) (personality_prompt p es) = AiReturns (ReplyText s) ->
  AI_run p (S (ai_calls ag)) (description_prompt p es (JsString.trim s))
    = AiReturns (ReplyText d) ->
  exists r : SpendingPersonality,
    analyzeSpendingPatterns es p ag = (Ok r, counted (counted ag))
    /\ (expenses (state ag) = es ->
        getInsights p ag = (Ok r, counted (counted ag)))
    /\ personality r = JsString.trim s
    /\ (In (personality r) personalities <->
        In (JsString.trim s) personalities).
Proof.
  intros Hmany Hfirst Hsecond.
  assert (Hguard : (List.length es <? 5) = false) by (apply Nat.ltb_ge; lia).
  assert (Hrun : exists r,
            analyzeSpendingPatterns es p ag = (Ok r, counted (counted ag))
            /\ personality r = JsString.trim s).
  { unfold analyzeSpendingPatterns. rewrite Hguard.
    unfold with_platform.
    eexists. split.
    - unfold bind at 1. cbv beta iota.
      fold (personality_prompt p es).
      erewrite bind_ok by (apply ai_run_returns; exact Hfirst).
      unfold reply_text. unfold bind at 1, ret at 1. cbv beta iota.
      fold (description_prompt p es (JsString.trim s)).
      erewrite bind_ok by (apply ai_run_returns; exact Hsecond).
      reflexivity.
    - reflexivity. }
  destruct Hrun as [r [Hrun Hlabel]].
  exists r. split; [exact Hrun |]. split; [| split].
  - intros Hes. unfold getInsights, bind, get_state. rewrite Hes. exact Hrun.
  - exact Hlabel.
  - rewrite Hlabel. tauto.
Qed.

Lemma analyzeSpendingPatterns_personality_witness :
  exists r : SpendingPersonality,
    analyzeSpendingPatterns Sample.five_expenses
      (Sample.platform " Weekend Warrior ")
      (Sample.agent_with (Sample.state_of Sample.five_expenses))
      = (Ok r,
         counted (counted
           (Sample.agent_with (Sample.state_of Sample.five_expenses))))
    /\ (expenses
          (state (Sample.agent_with (Sample.state_of Sample.five_expenses)))
        = Sample.five_expenses ->
        getInsights (Sample.platform " Weekend Warrior ")
          (Sample.agent_with (Sample.state_of Sample.five_expenses))
          = (Ok r,
             counted (counted
               (Sample.agent_with (Sample.state_of Sample.five_expenses)))))
    /\ personality r = JsString.trim " Weekend Warrior "
    /\ (In (personality r) personalities <->
        In (JsString.trim " Weekend Warrior ") personalities).
Proof.
  apply (analyzeSpendingPatterns_personality Sample.five_expenses
           (Sample.platform " Weekend Warrior ")
           (Sample.agent_with (Sample.state_of Sample.five_expenses))
           " Weekend Warrior " " Weekend Warrior ").
  - cbn. lia.
  - reflexivity.
  - reflexivity.
Defined.

(** C8 as stated fails: the model may answer with a label outside the
    list, and the report carries it. *)
Lemma analyzeSpendingPatterns_personality_counterexample :
  exists r ag',
    5 <= List.length Sample.five_expenses
    /\ analyzeSpendingPatterns Sample.five_expenses
         (Sample.platform "Big Spender") Sample.new_agent = (Ok r, ag')
    /\ personality r = "Big Spender"
    /\ ~ In (personality r) personalities.
Proof.
  do 2 eexists. split; [cbn; lia |].
  split; [vm_compute; reflexivity |].
  split; [reflexivity |].
  intros H. not_listed H.
Qed.

(** * Further properties *)

(** ** Effects of the operations on the agent *)

Lemma same_store_refl ag : same_store ag ag.
Proof. split; reflexivity. Qed.

Lemma same_store_trans a b c :
  same_store a b -> same_store b c -> same_store a c.
Proof. intros [H1 H2] [H3 H4]. split; congruence. Qed.

Lemma same_store_counted ag : same_store ag (counted ag).
Proof. split; reflexivity. Qed.

Lemma same_store_synced a b : same_store a b -> synced a -> synced b.
Proof. unfold synced. intros [H1 H2] H. congruence. Qed.

Lemma initialized_synced uid ag : synced (initialized uid ag).
Proof. unfold synced, initialized. destruct (storage ag); reflexivity. Qed.

Lemma stores_one_expenses p ag ag' e :
  stores_one p ag ag' e ->
  expenses (state ag') = expenses (state ag) ++ [e]
  /\ conversations (state ag') = conversations (state ag)
  /\ userId (state ag') = userId (state ag)
  /\ preferences (state ag') = preferences (state ag)
  /\ synced ag'.
Proof.
  intros [ag1 [x [[Hst _] [Hag He]]]]. subst ag' e. unfold synced. cbn.
  rewrite Hst. repeat split.
Qed.

(** The model is called and nothing else happens. *)
Lemma ai_run_keeps prompt p ag :
  same_store ag (snd (ai_run prompt p ag)).
Proof.
  unfold ai_run. destruct (AI_run p (ai_calls ag) prompt); apply same_store_counted.
Qed.

Lemma categorizeExpense_keeps merchant amount notes p ag :
  same_store ag (snd (categorizeExpense merchant amount notes p ag)).
Proof.
  rewrite categorizeExpense_run. apply same_store_counted.
Qed.

Lemma analyzeSpendingPatterns_keeps es p ag :
  same_store ag (snd (analyzeSpendingPatterns es p ag)).
Proof.
  unfold analyzeSpendingPatterns.
  destruct (List.length es <? 5); [apply same_store_refl |].
  unfold bind, with_platform, ai_run, reply_text, ret, throw.
  destruct (AI_run p (ai_calls ag) _) as [[s | o |] | e]; cbn;
    try apply same_store_counted.
  destruct (AI_run p (S (ai_calls ag)) _) as [[d | o |] | e]; cbn;
    split; reflexivity.
Qed.

Lemma chatWithAI_keeps message context p ag :
  same_store ag (snd (chatWithAI message context p ag)).
Proof.
  destruct (chatWithAI_run message context p ag) as [reply Hrun].
  rewrite Hrun. apply same_store_counted.
Qed.

Lemma today_keeps p ag : same_store ag (snd (today p ag)).
Proof. split; reflexivity. Qed.



(** The loop of the chat route, with all it does to the agent. *)
Lemma detect_and_add_effect ps message p ag :
  match ChatExtractor.first_detected ps message with
  | Some (a, m) =>
      exists e ag',
        detect_and_add ps message p ag = (Ok true, ag')
        /\ stores_one p ag ag' e
        /\ amount e = a /\ merchant e = m
        /\ In (category e) validCategories
        /\ notes e = Some "Added via chat"
        /\ date e = Some (JsString.before_char "T" (now p (clock_reads ag)))
  | None => detect_and_add ps message p ag = (Ok false, ag)
  end.
Proof.
  induction ps as [| pat ps IH]; [reflexivity |].
  cbn [ChatExtractor.first_detected detect_and_add].
  destruct (ChatExtractor.detect pat message) as [[a m] |]; [| exact IH].
  destruct (categorizeExpense_valid m a None p ag) as [c [Hrun Hvalid]].
  do 2 eexists. split.
  - unfold try_catch.
    step Hrun.
    erewrite bind_ok by apply today_run.
    erewrite bind_ok by apply addExpense_run.
    reflexivity.
  - split.
    + eexists _, _. split; [| split; reflexivity]. split; reflexivity.
    + cbn. repeat split. exact Hvalid.
Qed.

(** [parseAndAddExpense], with all it does to the agent: it throws
    after its one call to the model, or stores one categorized expense. *)
Lemma parseAndAddExpense_effect text p ag :
  (exists e, parseAndAddExpense text p ag = (Throw e, counted ag))
  \/ (exists x ag' c,
        parseAndAddExpense text p ag = (Ok x, ag')
        /\ stores_one p ag ag' x
        /\ In (category x) validCategories
        /\ category x = assigned c
        /\ notes x = Some (auto_note c)
        /\ ~ (amount x == 0)%Q /\ merchant x <> ""
        /\ date x = Some (JsString.before_char "T" (now p (clock_reads ag)))
        /\ ai_calls ag' = S (S (ai_calls ag))).
Proof.
  unfold parseAndAddExpense.
  assert (Hstore : forall parsed a m,
            usable parsed = Some (a, m) ->
            exists x ag' c,
              (c <- categorizeExpense m a None ;;
               d <- today ;;
               addExpense {| new_amount := a; new_merchant := m;
                             new_category := assigned c;
                             new_date := Some d;
                             new_notes := Some (auto_note c) |})%agent
                p (counted ag) = (Ok x, ag')
              /\ stores_one p ag ag' x
              /\ In (category x) validCategories
              /\ category x = assigned c
              /\ notes x = Some (auto_note c)
              /\ ~ (amount x == 0)%Q /\ merchant x <> ""
              /\ date x = Some (JsString.before_char "T"
                                  (now p (clock_reads ag)))
              /\ ai_calls ag' = S (S (ai_calls ag))).
  { intros parsed a m Huse.
    destruct (usable_some _ _ _ Huse) as [f [_ [Hpres [Ha Hm]]]].
    destruct Hpres as [a' [m' [Ha' [Hnz [Hm' Hne]]]]].
    assert (a' = a) by congruence. assert (m' = m) by congruence. subst a' m'.
    destruct (categorizeExpense_valid m a None p (counted ag))
      as [c [Hrun Hvalid]].
    eexists _, _, c. split.
    - step Hrun.
      erewrite bind_ok by apply today_run.
      apply addExpense_run.
    - split.
      + eexists _, _. split; [| split; reflexivity]. split; reflexivity.
      + cbn. repeat split; assumption. }
  destruct (AI_run p (ai_calls ag) (ParsePrompt text))
    as [[s | f |] | err] eqn:Hreply.
  - erewrite bind_ok by (apply ai_run_returns; exact Hreply).
    unfold try_catch, json_parse, bind.
    destruct (JSON_parse p (strip_fences s)) as [parsed |].
    + destruct (usable parsed) as [[a m] |] eqn:Huse.
      * right. destruct (Hstore parsed a m Huse) as [x [ag' [c H]]].
        exists x, ag', c. exact H.
      * left. eexists. reflexivity.
    + left. eexists. reflexivity.
  - erewrite bind_ok by (apply ai_run_returns; exact Hreply).
    unfold try_catch, bind, ret.
    destruct (usable (Truthy f)) as [[a m] |] eqn:Huse.
    + right. destruct (Hstore (Truthy f) a m Huse) as [x [ag' [c H]]].
      exists x, ag', c. exact H.
    + left. eexists. reflexivity.
  - erewrite bind_ok by (apply ai_run_returns; exact Hreply).
    left. eexists. reflexivity.
  - erewrite bind_throw by (apply ai_run_throws; exact Hreply).
    left. eexists. reflexivity.
Qed.

Lemma post_expense_effect body p ag :
  exists e ag',
    post_expense body p ag = (Ok (ExpenseAdded e), ag')
    /\ stores_one p ag ag' e
    /\ merchant e = body_merchant body
    /\ amount e = body_amount body
    /\ date e = body_date body
    /\ match given_category body with
       | Some c => category e = c /\ notes e = body_notes body
       | None => In (category e) validCategories
       end.
Proof.
  unfold post_expense.
  destruct (given_category body) as [c |] eqn:Hgiven.
  - do 2 eexists. split; [reflexivity |]. split.
    + eexists _, _. split; [apply same_store_refl | split; reflexivity].
    + cbn. repeat split.
  - destruct (categorizeExpense_valid (body_merchant body)
                (body_amount body) None p ag) as [c [Hrun Hvalid]].
    do 2 eexists. split.
    + erewrite bind_ok; [| step Hrun; reflexivity].
      reflexivity.
    + split.
      * eexists _, _. split; [apply same_store_counted | split; reflexivity].
      * cbn. repeat split. exact Hvalid.
Qed.

(** [chatWithAI] always answers, and never with the empty text. *)
Lemma chatWithAI_answers message context p ag :
  exists reply,
    chatWithAI message context p ag = (Ok reply, counted ag)
    /\ reply <> Text "".
Proof.
  unfold chatWithAI, bind, get_state, try_catch, ai_run.
  destruct (AI_run p (ai_calls ag) _) as [[s | o |] | e];
    [destruct (JsString.truthy s) eqn:Ht | | |];
    eexists; (split; [reflexivity |]); try discriminate.
  apply truthy_nonempty in Ht. intros H. inversion H. contradiction.
Qed.

(** The chat route, with all it does to the agent: it never throws, it
    records the message and the reply, and it stores what the loop over
    the patterns detects. *)
Lemma chat_route_effect message p ag :
  exists reply added m1 m2 ag',
    chat_route message p ag
      = (Ok (ChatReply reply (negb (List.length added =? 0))), ag')
    /\ expenses (state ag') = expenses (state ag) ++ added
    /\ conversations (state ag') =
         JsArray.slice_last 20 (conversations (state ag) ++ [m1; m2])
    /\ m1 = {| role := user; content := Text message;
               timestamp := now p (clock_reads ag) |}
    /\ role m2 = assistant /\ content m2 = reply
    /\ userId (state ag') = userId (state ag)
    /\ preferences (state ag') = preferences (state ag)
    /\ synced ag'
    /\ reply <> Text ""
    /\ match ChatExtractor.first_detected ChatExtractor.expensePatterns
               message with
       | Some (a, m) =>
           exists e, added = [e]
             /\ amount e = a /\ merchant e = m
             /\ In (category e) validCategories
             /\ notes e = Some "Added via chat"
       | None => added = []
       end.
Proof.
  unfold chat_route.
  pose proof (addMessage_run user (Text message) p ag) as Hfirst.
  cbn zeta in Hfirst.
  match type of Hfirst with _ = (Ok ?m, ?a) => set (m1 := m) in *;
    set (ag1 := a) in * end.
  pose proof (detect_and_add_effect ChatExtractor.expensePatterns message
                p ag1) as Hloop.
  destruct (ChatExtractor.first_detected ChatExtractor.expensePatterns message)
    as [[a m] |].
  - destruct Hloop as [e [ag2 [Hloop [Hstore [Ha [Hm [Hcat [Hnotes _]]]]]]]].
    destruct (stores_one_expenses _ _ _ _ Hstore)
      as [Hexp [Hconv [Huid [Hpref _]]]].
    destruct (getSpendingContext_pure p ag2) as [context Hcontext].
    destruct (chatWithAI_answers (message ++ newline ++ newline ++ saved_note)
                context p ag2) as [reply [Hreply Hne]].
    pose proof (addMessage_run assistant reply p (counted ag2)) as Hlast.
    cbn zeta in Hlast.
    match type of Hlast with _ = (Ok ?m, ?a) => set (m2 := m) in *;
      set (ag3 := a) in * end.
    exists reply, [e], m1, m2, ag3. split.
    { step Hfirst. step Hloop. step Hcontext. step Hreply. step Hlast.
      reflexivity. }
    subst ag3. cbn [state counted with_conversations expenses conversations
                    userId preferences].
    rewrite Hexp, Hconv, Huid, Hpref. subst ag1.
    cbn [state with_conversations expenses conversations userId preferences].
    rewrite slice_last_app, <- app_assoc.
    repeat split; try exact Hne. exists e. repeat split; assumption.
  - destruct (getSpendingContext_pure p ag1) as [context Hcontext].
    destruct (chatWithAI_answers message context p ag1)
      as [reply [Hreply Hne]].
    pose proof (addMessage_run assistant reply p (counted ag1)) as Hlast.
    cbn zeta in Hlast.
    match type of Hlast with _ = (Ok ?m, ?a) => set (m2 := m) in *;
      set (ag3 := a) in * end.
    exists reply, [], m1, m2, ag3. split.
    { step Hfirst. step Hloop. step Hcontext. step Hreply. step Hlast.
      reflexivity. }
    subst ag3 ag1.
    cbn [state counted with_conversations expenses conversations
         userId preferences].
    rewrite slice_last_app, <- app_assoc, app_nil_r.
    repeat split; exact Hne.
Qed.

(** ** What a request does to the agent *)

Lemma quiet_effect req ag0 ag' :
  synced ag0 -> same_store ag0 ag' -> request_effect req ag0 ag'.
Proof.
  intros Hsync Hsame. exists []. destruct Hsame as [Hst Hsto].
  rewrite app_nil_r, Hst.
  split; [reflexivity |]. split; [cbn; lia |].
  split; [intros e [] |]. split; [now left |].
  split; [reflexivity |]. split; [reflexivity |].
  unfold synced in *. congruence.
Qed.

Lemma stored_effect req p ag0 ag' e :
  stores_one p ag0 ag' e ->
  In (category e) validCategories
  \/ (routed req "/expenses" "POST" = true
      /\ exists body, payload req = ExpensePayload body
                      /\ given_category body = Some (category e)) ->
  request_effect req ag0 ag'.
Proof.
  intros Hstore Hcat.
  destruct (stores_one_expenses _ _ _ _ Hstore)
    as [Hexp [Hconv [Huid [Hpref Hsync]]]].
  exists [e].
  split; [exact Hexp |]. split; [cbn; lia |].
  split; [| split; [now left |
                    split; [exact Huid | split; [exact Hpref | exact Hsync]]]].
  intros e' [He | []]. subst e'. exact Hcat.
Qed.

Lemma fetch_effect req p ag r ag' :
  fetch req p ag = (r, ag') ->
  request_effect req (initialized (request_user req) ag) ag'.
Proof.
  unfold fetch. cbv zeta.
  erewrite bind_ok by apply initialize_run.
  set (ag0 := initialized (request_user req) ag).
  assert (Hsync : synced ag0) by apply initialized_synced.
  fold (routed req "/expenses" "POST") (routed req "/expenses" "GET")
       (routed req "/expenses/parse" "POST") (routed req "/chat" "POST")
       (routed req "/insights" "GET").
  destruct (routed req "/expenses" "POST") eqn:Hadd.
  { (* add *)
    unfold expense_body.
    destruct (payload req) as [body | | |] eqn:Hbody;
      try (intros H; inversion H; subst;
           apply quiet_effect; [exact Hsync | apply same_store_refl]).
    destruct (post_expense_effect body p ag0)
      as [e [ag1 [Hrun [Hstore [_ [_ [_ Hcat]]]]]]].
    erewrite bind_ok by reflexivity. rewrite Hrun.
    intros H. inversion H; subst ag1.
    apply (stored_effect req p ag0 ag' e Hstore).
    destruct (given_category body) as [c |] eqn:Hgiven.
    - right. split; [exact Hadd |]. exists body. split; [exact Hbody |].
      destruct Hcat as [Hc _]. now rewrite Hc.
    - left. exact Hcat. }
  destruct (routed req "/expenses" "GET").
  { (* list *)
    erewrite bind_ok by apply getExpenses_run.
    intros H. inversion H; subst.
    apply quiet_effect; [exact Hsync | apply same_store_refl]. }
  destruct (routed req "/expenses/parse" "POST").
  { (* parse *)
    unfold text_body.
    destruct (payload req) as [| text | |];
      try (intros H; inversion H; subst;
           apply quiet_effect; [exact Hsync | apply same_store_refl]).
    erewrite bind_ok by reflexivity. unfold parse_route, try_catch.
    destruct (parseAndAddExpense_effect text p ag0)
      as [[e Hrun] | [x [ag1 [c [Hrun [Hstore [Hcat _]]]]]]].
    - erewrite bind_throw by exact Hrun.
      intros H. inversion H; subst.
      apply quiet_effect; [exact Hsync | apply same_store_counted].
    - step Hrun. intros H. inversion H; subst ag1.
      apply (stored_effect req p ag0 ag' x Hstore). now left. }
  destruct (routed req "/chat" "POST").
  { (* chat *)
    unfold message_body.
    destruct (payload req) as [| | message |];
      try (intros H; inversion H; subst;
           apply quiet_effect; [exact Hsync | apply same_store_refl]).
    erewrite bind_ok by reflexivity.
    destruct (chat_route_effect message p ag0)
      as [reply [added [m1 [m2 [ag1 [Hrun [Hexp [Hconv [_ [_ [_ [Huid [Hpref
           [Hsynced [_ Hadded]]]]]]]]]]]]]]].
    rewrite Hrun. intros H. inversion H; subst ag1.
    exists added.
    split; [exact Hexp |].
    split; [| split; [| split; [right; now exists m1, m2 |
                        split; [exact Huid | split; [exact Hpref
                                                     | exact Hsynced]]]]].
    - destruct (ChatExtractor.first_detected _ message) as [[a m] |].
      + destruct Hadded as [e [He _]]. subst added. cbn. lia.
      + subst added. cbn. lia.
    - intros e Hin. left.
      destruct (ChatExtractor.first_detected _ message) as [[a m] |].
      + destruct Hadded as [e0 [He [_ [_ [Hcat _]]]]]. subst added.
        destruct Hin as [Heq | []]. now subst e.
      + subst added. destruct Hin. }
  destruct (routed req "/insights" "GET").
  { (* insights *)
    unfold getInsights, bind at 1. unfold get_state at 1. unfold bind.
    pose proof (analyzeSpendingPatterns_keeps (expenses (state ag0)) p ag0)
      as Hkeeps.
    destruct (analyzeSpendingPatterns (expenses (state ag0)) p ag0)
      as [[report | e] ag1]; cbn in Hkeeps;
      intros H; inversion H; subst;
      apply quiet_effect; assumption. }
  intros H. inversion H; subst.
  apply quiet_effect; [exact Hsync | apply same_store_refl].
Qed.

(** ** Sequences of requests and evictions *)

Lemma initialized_persisted uid ag :
  expenses (state (initialized uid ag)) = expenses (persisted ag)
  /\ conversations (state (initialized uid ag)) = conversations (persisted ag)
  /\ preferences (state (initialized uid ag)) = preferences (persisted ag)
  /\ (storage ag <> None -> state (initialized uid ag) = persisted ag).
Proof.
  unfold initialized, persisted.
  destruct (storage ag); cbn; repeat split; congruence.
Qed.

Lemma synced_persisted ag : synced ag -> persisted ag = state ag.
Proof. unfold synced, persisted. intros H. now rewrite H. Qed.

Lemma synced_at_rest ag : synced ag -> at_rest ag.
Proof. unfold synced, at_rest. intros H. now rewrite H. Qed.

Lemma restarted_persisted ag :
  at_rest ag -> persisted (restarted ag) = persisted ag.
Proof.
  unfold at_rest, persisted, restarted. cbn.
  destruct (storage ag); [reflexivity | congruence].
Qed.

Lemma restarted_at_rest ag : at_rest (restarted ag).
Proof. unfold at_rest, restarted. cbn. destruct (storage ag); auto. Qed.

(** One event, seen on what the agent holds at rest. *)
Lemma event_effect p ag ev :
  at_rest ag ->
  at_rest (after_event p ag ev)
  /\ exists added,
       expenses (persisted (after_event p ag ev))
         = expenses (persisted ag) ++ added
       /\ List.length added <= List.length (handled [ev])
       /\ (forall e, In e added ->
             In (category e) validCategories
             \/ exists req body,
                  ev = Handle req /\ payload req = ExpensePayload body
                  /\ given_category body = Some (category e))
       /\ (conversations (persisted (after_event p ag ev))
             = conversations (persisted ag)
           \/ exists m1 m2,
                conversations (persisted (after_event p ag ev)) =
                  JsArray.slice_last 20
                    (conversations (persisted ag) ++ [m1; m2]))
       /\ preferences (persisted (after_event p ag ev))
            = preferences (persisted ag)
       /\ (storage ag <> None ->
           userId (persisted (after_event p ag ev)) = userId (persisted ag))
       /\ (storage ag <> None -> storage (after_event p ag ev) <> None).
Proof.
  intros Hrest. destruct ev as [req |]; cbn [after_event].
  - destruct (fetch req p ag) as [r ag'] eqn:Hrun. cbn [snd].
    destruct (fetch_effect req p ag r ag' Hrun)
      as [added [Hexp [Hlen [Hcat [Hconv [Huid [Hpref Hsync]]]]]]].
    destruct (initialized_persisted (request_user req) ag)
      as [Hexp0 [Hconv0 [Hpref0 Hst0]]].
    rewrite (synced_persisted _ Hsync).
    split; [now apply synced_at_rest |].
    exists added.
    split; [now rewrite Hexp, Hexp0 |]. split; [exact Hlen |].
    split.
    { intros e Hin. destruct (Hcat e Hin) as [H | [_ [body [Hb Hg]]]];
        [now left | right; now exists req, body]. }
    split; [rewrite <- Hconv0; exact Hconv |].
    split; [now rewrite Hpref, Hpref0 |].
    split.
    + intros Hstored. rewrite Huid, (Hst0 Hstored). reflexivity.
    + intros _. unfold synced in Hsync. congruence.
  - split; [apply restarted_at_rest |].
    rewrite (restarted_persisted _ Hrest).
    exists []. rewrite app_nil_r. cbn.
    split; [reflexivity |]. split; [lia |].
    split; [intros e [] |]. split; [now left |].
    split; [reflexivity |]. split; [reflexivity |]. tauto.
Qed.

Lemma handled_app evs evs' : handled (evs ++ evs') = handled evs ++ handled evs'.
Proof. unfold handled. apply flat_map_app. Qed.

Lemma after_events_snoc p ag evs ev :
  after_events p ag (evs ++ [ev])
    = after_event p (after_events p ag evs) ev.
Proof. unfold after_events. now rewrite fold_left_app. Qed.

Lemma after_events_at_rest p ag evs :
  at_rest ag -> at_rest (after_events p ag evs).
Proof.
  intros Hrest. induction evs as [| ev evs IH] using rev_ind; [exact Hrest |].
  rewrite after_events_snoc. now apply event_effect.
Qed.

Lemma after_events_keeps_stored p ag evs :
  at_rest ag -> storage ag <> None -> storage (after_events p ag evs) <> None.
Proof.
  intros Hrest Hstored. induction evs as [| ev evs IH] using rev_ind;
    [exact Hstored |].
  rewrite after_events_snoc.
  destruct (event_effect p (after_events p ag evs) ev
              (after_events_at_rest p ag evs Hrest))
    as [_ [more [_ [_ [_ [_ [_ [_ Hkeeps]]]]]]]].
  now apply Hkeeps.
Qed.

(** X1: after every request, whatever its route and outcome (a reply or
    an uncaught error), the durable storage holds exactly the state the
    agent has in memory. *)
Theorem fetch_leaves_storage_synced (req : Request) (p : Platform)
    (ag : Agent) :
  storage (snd (fetch req p ag)) = Some (state (snd (fetch req p ag))).
Proof.
  destruct (fetch req p ag) as [r ag'] eqn:Hrun.
  destruct (fetch_effect req p ag r ag' Hrun)
    as [added [_ [_ [_ [_ [_ [_ Hsync]]]]]]].
  exact Hsync.
Qed.

(** X2: over any sequence of requests and evictions, the stored expense
    list only grows at its end, by at most one expense per request:
    no route removes, reorders or rewrites a stored expense. *)
Theorem expenses_append_only (p : Platform) (ag : Agent)
    (evs : list Event) :
  at_rest ag ->
  exists added,
    expenses (persisted (after_events p ag evs))
      = expenses (persisted ag) ++ added
    /\ List.length added <= List.length (handled evs).
Proof.
  intros Hrest. induction evs as [| ev evs IH] using rev_ind.
  - exists []. cbn. now rewrite app_nil_r.
  - destruct IH as [added [Hexp Hlen]].
    rewrite after_events_snoc, handled_app, length_app.
    destruct (event_effect p (after_events p ag evs) ev
                (after_events_at_rest p ag evs Hrest))
      as [_ [more [Hmore [Hone _]]]].
    exists (added ++ more). rewrite Hmore, Hexp, app_assoc, length_app.
    split; [reflexivity | lia].
Qed.

Lemma expenses_append_only_witness :
  exists added,
    expenses (persisted
                (after_events (Sample.platform "Food") Sample.new_agent
                   [Handle (Sample.add_request None); Evict;
                    Handle (Sample.add_request (Some "Luxury"))]))
      = expenses (persisted Sample.new_agent) ++ added
    /\ List.length added
       <= List.length (handled [Handle (Sample.add_request None); Evict;
                                Handle (Sample.add_request (Some "Luxury"))]).
Proof. apply expenses_append_only. reflexivity. Defined.

(** X3: if every stored expense has one of the five categories, this
    remains so over any sequence of requests and evictions in which no
    direct add carries a category outside the five: the chat route and
    the parse route never store another category. *)
Theorem categories_stay_valid (p : Platform) (ag : Agent)
    (evs : list Event) :
  at_rest ag ->
  categories_valid (expenses (persisted ag)) ->
  (forall req, In req (handled evs) -> adds_valid_category req) ->
  categories_valid (expenses (persisted (after_events p ag evs))).
Proof.
  intros Hrest Hvalid. induction evs as [| ev evs IH] using rev_ind;
    intros Hadds; [exact Hvalid |].
  rewrite after_events_snoc.
  assert (IH' : categories_valid
                  (expenses (persisted (after_events p ag evs)))).
  { apply IH. intros req Hin. apply Hadds. rewrite handled_app.
    apply in_or_app. now left. }
  destruct (event_effect p (after_events p ag evs) ev
              (after_events_at_rest p ag evs Hrest))
    as [_ [more [Hmore [_ [Hcat _]]]]].
  intros e Hin. rewrite Hmore in Hin. apply in_app_or in Hin.
  destruct Hin as [Hin | Hin]; [now apply IH' |].
  destruct (Hcat e Hin) as [H | [req [body [Hev [Hbody Hgiven]]]]];
    [exact H |].
  apply (Hadds req) with (body := body); try assumption.
  rewrite handled_app. apply in_or_app. right. subst ev. now left.
Qed.

Lemma categories_stay_valid_witness :
  categories_valid
    (expenses (persisted
                 (after_events (Sample.platform "Food") Sample.new_agent
                    [Handle (Sample.add_request None); Evict;
                     Handle (Sample.add_request (Some "Bills"))]))).
Proof.
  apply categories_stay_valid.
  - reflexivity.
  - intros e [].
  - intros req Hin body c Hbody Hgiven.
    destruct Hin as [Hreq | [Hreq | []]]; subst req;
      inversion Hbody; subst body; cbn in Hgiven;
      [discriminate | inversion Hgiven; cbn; tauto].
Defined.

(** X4: if at most 20 messages are stored, at most 20 are stored after
    any sequence of requests and evictions. *)
Theorem conversations_stay_bounded (p : Platform) (ag : Agent)
    (evs : list Event) :
  at_rest ag ->
  List.length (conversations (persisted ag)) <= 20 ->
  List.length (conversations (persisted (after_events p ag evs))) <= 20.
Proof.
  intros Hrest Hbound. induction evs as [| ev evs IH] using rev_ind;
    [exact Hbound |].
  rewrite after_events_snoc.
  destruct (event_effect p (after_events p ag evs) ev
              (after_events_at_rest p ag evs Hrest))
    as [_ [more [_ [_ [_ [Hconv _]]]]]].
  destruct Hconv as [Hsame | [m1 [m2 Hchat]]].
  - now rewrite Hsame.
  - rewrite Hchat, slice_last_length. lia.
Qed.

Lemma conversations_stay_bounded_witness :
  List.length
    (conversations
       (persisted
          (after_events (Sample.platform "Food") Sample.new_agent
             [Handle (Sample.add_request None); Evict]))) <= 20.
Proof.
  apply conversations_stay_bounded; [reflexivity | cbn; lia].
Defined.

(** X5: once a state is stored, no later request or eviction changes
    its user id, whatever [userId] the requests carry; and no request
    ever changes the preferences. *)
Theorem user_and_preferences_fixed (p : Platform) (ag : Agent)
    (evs : list Event) :
  at_rest ag ->
  preferences (persisted (after_events p ag evs)) = preferences (persisted ag)
  /\ (storage ag <> None ->
      userId (persisted (after_events p ag evs)) = userId (persisted ag)).
Proof.
  intros Hrest. induction evs as [| ev evs IH] using rev_ind.
  - split; reflexivity.
  - pose proof (after_events_keeps_stored p ag evs Hrest) as Hstored.
    destruct IH as [Hpref Huid].
    rewrite after_events_snoc.
    destruct (event_effect p (after_events p ag evs) ev
                (after_events_at_rest p ag evs Hrest))
      as [_ [more [_ [_ [_ [_ [Hpref' [Huid' _]]]]]]]].
    split; [congruence |].
    intros H. rewrite Huid' by now apply Hstored. now apply Huid.
Qed.

Lemma user_and_preferences_fixed_witness :
  preferences
    (persisted
       (after_events (Sample.platform "Food")
          (Sample.agent_with (Sample.state_of []))
          [Handle (Sample.add_request None); Evict]))
    = preferences (persisted (Sample.agent_with (Sample.state_of [])))
  /\ (storage (Sample.agent_with (Sample.state_of [])) <> None ->
      userId
        (persisted
           (after_events (Sample.platform "Food")
              (Sample.agent_with (Sample.state_of []))
              [Handle (Sample.add_request None); Evict]))
        = userId (persisted (Sample.agent_with (Sample.state_of [])))).
Proof. apply user_and_preferences_fixed. exact I. Defined.

Lemma routed_other_method req suffix verb :
  method req <> verb -> routed req suffix verb = false.
Proof.
  intros H. unfold routed. apply String.eqb_neq in H. rewrite H.
  apply andb_false_r.
Qed.

(** X6: a request whose method is not POST changes neither the state nor
    the storage beyond what [initialize] does, whatever its path: listing,
    insights (which call the model) and unknown routes only read. *)
Theorem other_methods_only_read (req : Request) (p : Platform) (ag : Agent) :
  method req <> "POST" ->
  state (snd (fetch req p ag)) = state (initialized (request_user req) ag)
  /\ storage (snd (fetch req p ag))
       = storage (initialized (request_user req) ag).
Proof.
  intros Hmethod.
  change (same_store (initialized (request_user req) ag)
            (snd (fetch req p ag))).
  unfold fetch. cbv zeta.
  erewrite bind_ok by apply initialize_run.
  set (ag0 := initialized (request_user req) ag).
  fold (routed req "/expenses" "POST") (routed req "/expenses" "GET")
       (routed req "/expenses/parse" "POST") (routed req "/chat" "POST")
       (routed req "/insights" "GET").
  rewrite !(routed_other_method req _ "POST") by exact Hmethod.
  destruct (routed req "/expenses" "GET").
  { erewrite bind_ok by apply getExpenses_run. apply same_store_refl. }
  destruct (routed req "/insights" "GET"); [| apply same_store_refl].
  unfold getInsights, bind, get_state.
  pose proof (analyzeSpendingPatterns_keeps (expenses (state ag0)) p ag0)
    as Hkeeps.
  destruct (analyzeSpendingPatterns (expenses (state ag0)) p ag0)
    as [[report | e] ag1]; exact Hkeeps.
Qed.

Lemma other_methods_only_read_witness :
  state (snd (fetch {| path := "/api/user/insights"; method := "GET";
                       userId_param := Some "demo"; payload := NoPayload |}
                (Sample.platform "Food")
                (Sample.agent_with (Sample.state_of Sample.five_expenses))))
    = state (initialized "demo"
               (Sample.agent_with (Sample.state_of Sample.five_expenses)))
  /\ storage (snd (fetch {| path := "/api/user/insights"; method := "GET";
                            userId_param := Some "demo";
                            payload := NoPayload |}
                     (Sample.platform "Food")
                     (Sample.agent_with
                        (Sample.state_of Sample.five_expenses))))
       = storage (initialized "demo"
                    (Sample.agent_with
                       (Sample.state_of Sample.five_expenses))).
Proof.
  apply (other_methods_only_read
           {| path := "/api/user/insights"; method := "GET";
              userId_param := Some "demo"; payload := NoPayload |}).
  discriminate.
Defined.

Lemma fetch_list_run req p ag :
  JsString.endsWith (path req) "/expenses" = true ->
  method req = "GET" ->
  fetch req p ag
    = (Ok (ExpenseList (expenses (persisted ag))),
       initialized (request_user req) ag).
Proof.
  intros Hpath Hmethod. unfold fetch. cbv zeta.
  erewrite bind_ok by apply initialize_run.
  rewrite Hpath, Hmethod. cbn [String.eqb Ascii.eqb Bool.eqb andb].
  erewrite bind_ok by apply getExpenses_run.
  cbn [selects non_empty]. rewrite filter_all.
  destruct (initialized_persisted (request_user req) ag) as [Hexp _].
  now rewrite Hexp.
Qed.

(** X7: an expense added through [POST /expenses] survives the eviction
    of the instance: the next [GET /expenses], served by an instance
    constructed anew, lists the earlier expenses followed by the added
    one. *)
Theorem added_expense_survives_eviction (add list : Request)
    (body : ExpenseBody) (p : Platform) (ag : Agent) :
  JsString.endsWith (path add) "/expenses" = true ->
  method add = "POST" ->
  payload add = ExpensePayload body ->
  JsString.endsWith (path list) "/expenses" = true ->
  method list = "GET" ->
  exists e ag1,
    fetch add p ag = (Ok (ExpenseAdded e), ag1)
    /\ merchant e = body_merchant body
    /\ amount e = body_amount body
    /\ fst (fetch list p (restarted ag1))
         = Ok (ExpenseList (expenses (persisted ag) ++ [e])).
Proof.
  intros Hpath Hmethod Hbody Hpath' Hmethod'.
  destruct (post_expense_effect body p (initialized (request_user add) ag))
    as [e [ag1 [Hrun [Hstore [Hm [Ha _]]]]]].
  destruct (stores_one_expenses _ _ _ _ Hstore) as [Hexp [_ [_ [_ Hsync]]]].
  exists e, ag1. split; [| split; [exact Hm | split; [exact Ha |]]].
  - unfold fetch. cbv zeta.
    erewrite bind_ok by apply initialize_run.
    rewrite Hpath, Hmethod. cbn [String.eqb Ascii.eqb Bool.eqb andb].
    unfold expense_body. rewrite Hbody.
    erewrite bind_ok by reflexivity. exact Hrun.
  - rewrite (fetch_list_run list p (restarted ag1) Hpath' Hmethod').
    cbn [fst]. do 2 f_equal.
    rewrite (restarted_persisted ag1 (synced_at_rest _ Hsync)).
    rewrite (synced_persisted _ Hsync), Hexp.
    destruct (initialized_persisted (request_user add) ag) as [H0 _].
    now rewrite H0.
Qed.

Lemma added_expense_survives_eviction_witness :
  exists e ag1,
    fetch (Sample.add_request None) (Sample.platform "Food") Sample.new_agent
      = (Ok (ExpenseAdded e), ag1)
    /\ merchant e = body_merchant (Sample.add_body None)
    /\ amount e = body_amount (Sample.add_body None)
    /\ fst (fetch {| path := "/api/user/expenses"; method := "GET";
                     userId_param := Some "demo"; payload := NoPayload |}
              (Sample.platform "Food") (restarted ag1))
         = Ok (ExpenseList (expenses (persisted Sample.new_agent) ++ [e])).
Proof.
  apply (added_expense_survives_eviction (Sample.add_request None)
           {| path := "/api/user/expenses"; method := "GET";
              userId_param := Some "demo"; payload := NoPayload |}
           (Sample.add_body None)); reflexivity.
Defined.

(** ** The chat route *)


(** ** Path suffixes *)

Lemma substring_all (s : string) : substring 0 (String.length s) s = s.
Proof. induction s as [| c s IH]; cbn; [reflexivity | now rewrite IH]. Qed.

Lemma substring_is_suffix (k : nat) (s : string) :
  k <= String.length s ->
  exists pre, s = (pre ++ substring k (String.length s - k) s)%string.
Proof.
  revert s. induction k as [| k IH]; intros s Hk.
  - exists "". rewrite Nat.sub_0_r, substring_all. reflexivity.
  - destruct s as [| c s]; cbn in Hk; [lia |].
    destruct (IH s) as [pre Hpre]; [lia |].
    exists (String c pre). cbn. now rewrite <- Hpre.
Qed.

Lemma endsWith_suffix (s t : string) :
  JsString.endsWith s t = true -> exists pre, s = (pre ++ t)%string.
Proof.
  unfold JsString.endsWith. intros H. apply andb_true_iff in H.
  destruct H as [Hlen Heq]. apply Nat.leb_le in Hlen.
  apply String.eqb_eq in Heq.
  destruct (substring_is_suffix (String.length s - String.length t) s)
    as [pre Hpre]; [lia |].
  exists pre.
  replace (String.length s - (String.length s - String.length t))
    with (String.length t) in Hpre by lia.
  now rewrite Heq in Hpre.
Qed.

Lemma suffix_endsWith (pre t : string) :
  JsString.endsWith (pre ++ t) t = true.
Proof.
  unfold JsString.endsWith.
  assert (Hlen : String.length (pre ++ t) = String.length pre + String.length t).
  { induction pre as [| c pre IH]; cbn; [reflexivity | now rewrite IH]. }
  rewrite Hlen.
  replace (String.length pre + String.length t - String.length t)
    with (String.length pre) by lia.
  apply andb_true_iff. split; [apply Nat.leb_le; lia |].
  apply String.eqb_eq. clear Hlen.
  induction pre as [| c pre IH]; cbn; [apply substring_all | exact IH].
Qed.

(** Two suffixes of one string: one is a suffix of the other. *)
Lemma suffixes_nest (p1 t p2 u : string) :
  (p1 ++ t = p2 ++ u)%string ->
  JsString.endsWith u t = true \/ JsString.endsWith t u = true.
Proof.
  revert p2. induction p1 as [| c p1 IH]; intros p2 H.
  - right. cbn in H. subst t. apply suffix_endsWith.
  - destruct p2 as [| c2 p2].
    + left. cbn in H. subst u. apply (suffix_endsWith (String c p1)).
    + cbn in H. injection H as _ H. now apply (IH p2).
Qed.

Lemma endsWith_other (s t u : string) :
  JsString.endsWith u t = false -> JsString.endsWith t u = false ->
  JsString.endsWith s t = true -> JsString.endsWith s u = false.
Proof.
  intros Hut Htu H.
  destruct (JsString.endsWith s u) eqn:E; [| reflexivity].
  destruct (endsWith_suffix s t H) as [p1 H1].
  destruct (endsWith_suffix s u E) as [p2 H2].
  rewrite H1 in H2. destruct (suffixes_nest _ _ _ _ H2); congruence.
Qed.


Lemma parse_path s :
  JsString.endsWith s "/expenses/parse" = true ->
  JsString.endsWith s "/expenses" = false.
Proof.
  intros H. apply (endsWith_other s "/expenses/parse"); try exact H;
    reflexivity.
Qed.


Lemma fetch_parse_run req text p ag :
  JsString.endsWith (path req) "/expenses/parse" = true ->
  method req = "POST" ->
  payload req = TextPayload text ->
  fetch req p ag = parse_route text p (initialized (request_user req) ag).
Proof.
  intros Hpath Hmethod Hbody. unfold fetch. cbv zeta.
  erewrite bind_ok by apply initialize_run.
  rewrite Hpath, (parse_path _ Hpath), Hmethod.
  cbn [String.eqb Ascii.eqb Bool.eqb andb].
  unfold text_body. rewrite Hbody. erewrite bind_ok by reflexivity.
  reflexivity.
Qed.

Lemma fetch_insights_run req p ag :
  JsString.endsWith (path req) "/insights" = true ->
  method req = "GET" ->
  fetch req p ag =
    bind getInsights (fun r => ret (Insights r)) p
      (initialized (request_user req) ag).
Proof.
  intros Hpath Hmethod. unfold fetch. cbv zeta.
  erewrite bind_ok by apply initialize_run.
  assert (H1 : JsString.endsWith (path req) "/expenses" = false).
  { apply (endsWith_other _ "/insights"); try exact Hpath; reflexivity. }
  rewrite Hpath, H1, Hmethod. cbn [String.eqb Ascii.eqb Bool.eqb andb].
  rewrite !andb_false_r. reflexivity.
Qed.





(** ** The matcher on texts without digits *)

Lemma rest_of_refl s : rest_of s s.
Proof. now exists []. Qed.

Lemma rest_of_trans s2 s1 s : rest_of s2 s1 -> rest_of s1 s -> rest_of s2 s.
Proof.
  intros [p2 H2] [p1 H1]. exists (p1 ++ p2). subst. now rewrite app_assoc.
Qed.

Lemma rest_of_tail c s : rest_of s (c :: s).
Proof. now exists [c]. Qed.










(** ** The parse route *)

Lemma parseAndAddExpense_messages text p ag e ag' :
  parseAndAddExpense text p ag = (Throw e, ag') ->
  e = parse_error \/ e = format_error
  \/ AI_run p (ai_calls ag) (ParsePrompt text) = AiThrows e.
Proof.
  unfold parseAndAddExpense.
  destruct (AI_run p (ai_calls ag) (ParsePrompt text))
    as [[s | f |] | err] eqn:Hreply.
  - erewrite bind_ok by (apply ai_run_returns; exact Hreply).
    unfold try_catch, json_parse, bind.
    destruct (JSON_parse p (strip_fences s)) as [parsed |].
    + destruct (usable parsed) as [[a m] |].
      * intros H. exfalso.
        destruct (parsed_expense_stored a m p (counted ag))
          as [x [ag1 [Hrun _]]].
        unfold bind in Hrun. rewrite Hrun in H. discriminate H.
      * intros H. inversion H. tauto.
    + intros H. inversion H. tauto.
  - erewrite bind_ok by (apply ai_run_returns; exact Hreply).
    unfold try_catch, bind, ret.
    destruct (usable (Truthy f)) as [[a m] |].
    + intros H. exfalso.
      destruct (parsed_expense_stored a m p (counted ag))
        as [x [ag1 [Hrun _]]].
      unfold bind in Hrun. rewrite Hrun in H. discriminate H.
    + intros H. inversion H. tauto.
  - erewrite bind_ok by (apply ai_run_returns; exact Hreply).
    intros H. inversion H. tauto.
  - erewrite bind_throw by (apply ai_run_throws; exact Hreply).
    intros H. inversion H. tauto.
Qed.

(** X12: [POST /expenses/parse] always answers. Either it answers 400
    and stores nothing, with one of the two fixed messages or, when the
    call to the model itself failed, with the message of that failure;
    or it stores exactly one expense, whose amount and merchant are
    truthy, whose category is one of the five names and whose note
    records that category, after exactly two calls to the model. *)
Theorem parse_request_answers (req : Request) (text : string)
    (p : Platform) (ag : Agent) :
  JsString.endsWith (path req) "/expenses/parse" = true ->
  method req = "POST" ->
  payload req = TextPayload text ->
  (exists message ag',
     fetch req p ag = (Ok (BadRequest message), ag')
     /\ expenses (state ag') = expenses (persisted ag)
     /\ (message = parse_error \/ message = format_error
         \/ AI_run p (ai_calls ag) (ParsePrompt text) = AiThrows message))
  \/ (exists x ag' c,
        fetch req p ag = (Ok (ExpenseAdded x), ag')
        /\ expenses (state ag') = expenses (persisted ag) ++ [x]
        /\ ~ (amount x == 0)%Q /\ merchant x <> ""
        /\ In (category x) validCategories
        /\ category x = assigned c
        /\ notes x = Some (auto_note c)
        /\ ai_calls ag' = S (S (ai_calls ag))).
Proof.
  intros Hpath Hmethod Hbody.
  rewrite (fetch_parse_run req text p ag Hpath Hmethod Hbody).
  set (ag0 := initialized (request_user req) ag).
  destruct (initialized_persisted (request_user req) ag) as [Hexp0 _].
  fold ag0 in Hexp0.
  assert (Hcalls : ai_calls ag0 = ai_calls ag).
  { unfold ag0, initialized. destruct (storage ag); reflexivity. }
  unfold parse_route, try_catch.
  destruct (parseAndAddExpense_effect text p ag0)
    as [[e Hrun] | [x [ag1 [c [Hrun [Hstore [Hcat [Hc [Hn [Ha [Hm
         [_ Hai]]]]]]]]]]]].
  - left. exists e, (counted ag0). split.
    + erewrite bind_throw by exact Hrun. reflexivity.
    + split; [exact Hexp0 |].
      pose proof (parseAndAddExpense_messages text p ag0 e _ Hrun) as Hmsg.
      now rewrite Hcalls in Hmsg.
  - right. exists x, ag1, c. split.
    + step Hrun. reflexivity.
    + destruct (stores_one_expenses _ _ _ _ Hstore) as [Hexp _].
      rewrite Hexp, Hexp0, Hai, Hcalls. repeat split; assumption.
Qed.

Lemma parse_request_answers_witness :
  (exists message ag',
     fetch {| path := "/api/user/expenses/parse"; method := "POST";
              userId_param := Some "demo";
              payload := TextPayload "Spent $45 at Chipotle" |}
       Sample.offline Sample.new_agent = (Ok (BadRequest message), ag')
     /\ expenses (state ag') = expenses (persisted Sample.new_agent)
     /\ (message = parse_error \/ message = format_error
         \/ AI_run Sample.offline (ai_calls Sample.new_agent)
              (ParsePrompt "Spent $45 at Chipotle") = AiThrows message))
  \/ (exists x ag' c,
        fetch {| path := "/api/user/expenses/parse"; method := "POST";
                 userId_param := Some "demo";
                 payload := TextPayload "Spent $45 at Chipotle" |}
          Sample.offline Sample.new_agent = (Ok (ExpenseAdded x), ag')
        /\ expenses (state ag')
             = expenses (persisted Sample.new_agent) ++ [x]
        /\ ~ (amount x == 0)%Q /\ merchant x <> ""
        /\ In (category x) validCategories
        /\ category x = assigned c
        /\ notes x = Some (auto_note c)
        /\ ai_calls ag' = S (S (ai_calls Sample.new_agent))).
Proof.
  apply (parse_request_answers
           {| path := "/api/user/expenses/parse"; method := "POST";
              userId_param := Some "demo";
              payload := TextPayload "Spent $45 at Chipotle" |});
    reflexivity.
Defined.

(** ** The insights route *)

(** The analyzer on five expenses or more, by cases on the two replies. *)
Lemma analyzeSpendingPatterns_many es p ag :
  5 <= List.length es ->
  analyzeSpendingPatterns es p ag =
    match AI_run p (ai_calls ag) (personality_prompt p es) with
    | AiReturns (ReplyText s) =>
        match AI_run p (S (ai_calls ag))
                (description_prompt p es (JsString.trim s)) with
        | AiReturns (ReplyText d) =>
            (Ok {| personality := JsString.trim s;
                   description := JsString.trim d;
                   patterns := generatePatterns es (calculateTrends p es);
                   trends := calculateTrends p es |},
             counted (counted ag))
        | AiReturns _ => (Throw "TypeError", counted (counted ag))
        | AiThrows e => (Throw e, counted (counted ag))
        end
    | AiReturns _ => (Throw "TypeError", counted ag)
    | AiThrows e => (Throw e, counted ag)
    end.
Proof.
  intros Hmany.
  assert (Hguard : (List.length es <? 5) = false) by (apply Nat.ltb_ge; lia).
  unfold analyzeSpendingPatterns. rewrite Hguard.
  unfold with_platform, bind at 1. cbv beta iota.
  fold (personality_prompt p es).
  destruct (AI_run p (ai_calls ag) (personality_prompt p es))
    as [[s | o |] | e] eqn:Hfirst.
  - erewrite bind_ok by (apply ai_run_returns; exact Hfirst).
    unfold reply_text. unfold bind at 1, ret at 1. cbv beta iota.
    fold (description_prompt p es (JsString.trim s)).
    change (S (ai_calls ag)) with (ai_calls (counted ag)).
    destruct (AI_run p (ai_calls (counted ag))
                (description_prompt p es (JsString.trim s)))
      as [[d | o |] | e] eqn:Hsecond.
    + erewrite bind_ok by (apply ai_run_returns; exact Hsecond). reflexivity.
    + erewrite bind_ok by (apply ai_run_returns; exact Hsecond). reflexivity.
    + erewrite bind_ok by (apply ai_run_returns; exact Hsecond). reflexivity.
    + erewrite bind_throw by (apply ai_run_throws; exact Hsecond). reflexivity.
  - erewrite bind_ok by (apply ai_run_returns; exact Hfirst). reflexivity.
  - erewrite bind_ok by (apply ai_run_returns; exact Hfirst). reflexivity.
  - erewrite bind_throw by (apply ai_run_throws; exact Hfirst). reflexivity.
Qed.

(** X13: with five stored expenses or more, [GET /insights] answers
    exactly when the model answers both of its prompts with a text.
    Otherwise the request fails with an uncaught error: the analyzer has
    no fallback, unlike the categorizer and the chat. In either case the
    stored state is untouched. *)
Theorem insights_request_needs_both_replies (req : Request) (p : Platform)
    (ag : Agent) :
  JsString.endsWith (path req) "/insights" = true ->
  method req = "GET" ->
  5 <= List.length (expenses (persisted ag)) ->
  ((exists r ag', fetch req p ag = (Ok (Insights r), ag'))
   <-> exists s d,
         AI_run p (ai_calls ag)
           (personality_prompt p (expenses (persisted ag)))
           = AiReturns (ReplyText s)
         /\ AI_run p (S (ai_calls ag))
              (description_prompt p (expenses (persisted ag))
                 (JsString.trim s))
              = AiReturns (ReplyText d))
  /\ ((exists e ag', fetch req p ag = (Throw e, ag'))
      \/ (exists r ag', fetch req p ag = (Ok (Insights r), ag')))
  /\ state (snd (fetch req p ag)) = state (initialized (request_user req) ag).
Proof.
  intros Hpath Hmethod Hmany.
  rewrite (fetch_insights_run req p ag Hpath Hmethod).
  set (ag0 := initialized (request_user req) ag).
  destruct (initialized_persisted (request_user req) ag) as [Hexp0 _].
  fold ag0 in Hexp0.
  assert (Hcalls : ai_calls ag0 = ai_calls ag).
  { unfold ag0, initialized. destruct (storage ag); reflexivity. }
  unfold getInsights, bind, get_state. rewrite Hexp0.
  rewrite (analyzeSpendingPatterns_many _ p ag0 Hmany), Hcalls.
  destruct (AI_run p (ai_calls ag)
              (personality_prompt p (expenses (persisted ag))))
    as [[s | o |] | e].
  - destruct (AI_run p (S (ai_calls ag))
                (description_prompt p (expenses (persisted ag))
                   (JsString.trim s))) as [[d | o |] | e] eqn:Hsecond.
    + split; [| split; [right; do 2 eexists; reflexivity | reflexivity]].
      split; [intros _; exists s, d; auto | intros _; do 2 eexists; reflexivity].
    + split; [| split; [left; do 2 eexists; reflexivity | reflexivity]].
      split; [intros [r [ag' H]]; discriminate H |].
      intros [s' [d' [H1 H2]]]. inversion H1; subst s'. congruence.
    + split; [| split; [left; do 2 eexists; reflexivity | reflexivity]].
      split; [intros [r [ag' H]]; discriminate H |].
      intros [s' [d' [H1 H2]]]. inversion H1; subst s'. congruence.
    + split; [| split; [left; do 2 eexists; reflexivity | reflexivity]].
      split; [intros [r [ag' H]]; discriminate H |].
      intros [s' [d' [H1 H2]]]. inversion H1; subst s'. congruence.
  - split; [| split; [left; do 2 eexists; reflexivity | reflexivity]].
    split; [intros [r [ag' H]]; discriminate H |].
    intros [s' [d' [H1 H2]]]. discriminate H1.
  - split; [| split; [left; do 2 eexists; reflexivity | reflexivity]].
    split; [intros [r [ag' H]]; discriminate H |].
    intros [s' [d' [H1 H2]]]. discriminate H1.
  - split; [| split; [left; do 2 eexists; reflexivity | reflexivity]].
    split; [intros [r [ag' H]]; discriminate H |].
    intros [s' [d' [H1 H2]]]. discriminate H1.
Qed.

Lemma insights_request_needs_both_replies_witness :
  exists r ag',
    fetch {| path := "/api/user/insights"; method := "GET";
             userId_param := Some "demo"; payload := NoPayload |}
      (Sample.platform "Weekend Warrior")
      (Sample.agent_with (Sample.state_of Sample.five_expenses))
    = (Ok (Insights r), ag').
Proof.
  destruct (insights_request_needs_both_replies
              {| path := "/api/user/insights"; method := "GET";
                 userId_param := Some "demo"; payload := NoPayload |}
              (Sample.platform "Weekend Warrior")
              (Sample.agent_with (Sample.state_of Sample.five_expenses)))
    as [[_ Hanswers] _]; [reflexivity | reflexivity | cbn; lia |].
  apply Hanswers. do 2 eexists. split; reflexivity.
Defined.

(** ** Trends and patterns *)





(** Undated expenses count in neither total. *)
Lemma undated_counts_nowhere p es :
  (forall e, In e es -> day_of p e = None) ->
  filter (is_weekend p) es = [] /\ filter (is_weekday p) es = [].
Proof.
  induction es as [| e es IH]; intros H; [split; reflexivity |].
  destruct (IH (fun e' Hin => H e' (or_intror Hin))) as [H1 H2].
  cbn [filter]. unfold is_weekend at 1, is_weekday at 1.
  rewrite (H e (or_introl eq_refl)). split; assumption.
Qed.

(** *** The totals add up *)








(** *** Sorting *)










(** ** Stripping code fences *)

Lemma string_list_roundtrip (s : string) :
  string_of_list_ascii (list_ascii_of_string s) = s.
Proof. apply string_of_list_ascii_of_string. Qed.

(** Both fence patterns start with a backtick. *)
Lemma fence_needs_backtick {R : Type} (c : ascii) (s : list ascii)
    (k : list ascii -> RegExp.captures -> option R) :
  Ascii.eqb backtick c = false ->
  RegExp.run fence (c :: s) [] k = None
  /\ RegExp.run fence_json (c :: s) [] k = None.
Proof.
  intros Hc. unfold fence, fence_json. cbn -[Ascii.eqb].
  unfold backtick in Hc. rewrite Hc. split; reflexivity.
Qed.

Lemma remove_all_fence_free (r : RegExp.regex) (fuel : nat) (s : list ascii) :
  (forall c s', Ascii.eqb backtick c = false ->
     RegExp.run r (c :: s') [] (fun s1 _ => Some s1) = None) ->
  fence_free s -> List.length s <= fuel ->
  RegExp.remove_all_from r fuel s = s.
Proof.
  intros Hr. revert s. induction fuel as [| fuel IH]; intros s Hfree Hlen.
  - destruct s; [reflexivity | cbn in Hlen; lia].
  - destruct s as [| c s']; [reflexivity |].
    inversion Hfree as [| ? ? Hc Hfree']; subst.
    cbn [RegExp.remove_all_from]. rewrite (Hr c s' Hc).
    f_equal. apply IH; [exact Hfree' | cbn in Hlen; lia].
Qed.

Lemma trim_start_rest s : rest_of (JsString.trim_start s) s.
Proof.
  induction s as [| c s IH]; cbn; [apply rest_of_refl |].
  destruct (JsString.is_space c); [| apply rest_of_refl].
  exact (rest_of_trans _ _ _ IH (rest_of_tail c s)).
Qed.

Lemma trim_chars_In c s : In c (JsString.trim_chars s) -> In c s.
Proof.
  unfold JsString.trim_chars, JsString.trim_end. intros H.
  apply in_rev in H.
  destruct (trim_start_rest (rev (JsString.trim_start s))) as [pre Hpre].
  assert (H1 : In c (rev (JsString.trim_start s))).
  { rewrite Hpre. apply in_or_app. now right. }
  apply in_rev in H1.
  destruct (trim_start_rest s) as [pre' Hpre'].
  rewrite Hpre'. apply in_or_app. now right.
Qed.

(** X18: a reply of the model without any backtick reaches [JSON.parse]
    trimmed and otherwise unchanged: stripping the fences removes
    nothing from it. *)
Theorem strip_fences_without_fence (reply : string) :
  fence_free (list_ascii_of_string reply) ->
  strip_fences reply = JsString.trim reply.
Proof.
  intros Hfree. unfold strip_fences, RegExp.remove_all.
  assert (Htrim : fence_free (list_ascii_of_string (JsString.trim reply))).
  { unfold JsString.trim. rewrite list_ascii_of_string_of_list_ascii.
    unfold fence_free in *. rewrite Forall_forall in *.
    intros c Hin. apply Hfree. now apply trim_chars_In. }
  rewrite (remove_all_fence_free fence_json); try exact Htrim; try lia.
  - rewrite string_list_roundtrip.
    rewrite (remove_all_fence_free fence); try exact Htrim; try lia.
    + apply string_list_roundtrip.
    + intros c s' Hc. apply (fence_needs_backtick c s' _ Hc).
  - intros c s' Hc. apply (fence_needs_backtick c s' _ Hc).
Qed.

Lemma strip_fences_without_fence_witness :
  strip_fences "  null  " = JsString.trim "  null  ".
Proof.
  apply strip_fences_without_fence. unfold fence_free. cbn.
  repeat constructor.
Defined.

Lemma list_ascii_of_string_app (a b : string) :
  list_ascii_of_string (a ++ b) = list_ascii_of_string a ++ list_ascii_of_string b.
Proof. induction a as [| c a IH]; cbn; [reflexivity | now rewrite IH]. Qed.

(** A text that neither starts nor ends with white space is its own
    trimming. *)
Lemma trim_chars_id c mid d :
  JsString.is_space c = false -> JsString.is_space d = false ->
  JsString.trim_chars (c :: mid ++ [d]) = c :: mid ++ [d].
Proof.
  intros Hc Hd. unfold JsString.trim_chars, JsString.trim_end.
  assert (H1 : JsString.trim_start (c :: mid ++ [d]) = c :: mid ++ [d])
    by (cbn [JsString.trim_start]; now rewrite Hc).
  assert (H2 : rev (c :: mid ++ [d]) = d :: rev (c :: mid))
    by (change (c :: mid ++ [d]) with ((c :: mid) ++ [d]);
        now rewrite rev_app_distr).
  rewrite H1, H2. cbn [JsString.trim_start]. rewrite Hd, <- H2.
  apply rev_involutive.
Qed.

(** The scan copies a front without backticks. *)
Lemma remove_all_copies_front (r : RegExp.regex) (front rest : list ascii) :
  (forall c s', Ascii.eqb backtick c = false ->
     RegExp.run r (c :: s') [] (fun s1 _ => Some s1) = None) ->
  fence_free front ->
  forall fuel,
    RegExp.remove_all_from r (List.length front + fuel) (front ++ rest)
      = front ++ RegExp.remove_all_from r fuel rest.
Proof.
  intros Hr Hfree fuel. induction Hfree as [| c front Hc Hfree IH];
    [reflexivity |].
  cbn [List.length Nat.add app RegExp.remove_all_from].
  rewrite (Hr c (front ++ rest) Hc). now rewrite IH.
Qed.

Lemma remove_all_step (r : RegExp.regex) (fuel : nat) (c : ascii)
    (s s1 : list ascii) :
  RegExp.run r (c :: s) [] (fun s1 _ => Some s1) = Some s1 ->
  List.length s1 < List.length (c :: s) ->
  RegExp.remove_all_from r (S fuel) (c :: s) = RegExp.remove_all_from r fuel s1.
Proof.
  intros Hrun Hlen. cbn [RegExp.remove_all_from]. rewrite Hrun.
  apply Nat.ltb_lt in Hlen. now rewrite Hlen.
Qed.

Lemma fence_json_opens (rest : list ascii) :
  RegExp.run fence_json
    ("`" :: "`" :: "`" :: "j" :: "s" :: "o" :: "n" :: ascii_of_nat 10 :: rest)%char
    [] (fun s1 _ => Some s1) = Some rest.
Proof. reflexivity. Qed.

(** X19: a reply made of a [json] fence, a line break, a text without
    backticks and a closing fence is stripped to exactly that text. *)
Theorem strip_fences_unwraps (body : string) :
  fence_free (list_ascii_of_string body) ->
  strip_fences ("```json" ++ newline ++ body ++ "```") = body.
Proof.
  intros Hfree.
  set (b := list_ascii_of_string body) in *.
  set (closing := ["`"; "`"; "`"]%char).
  assert (Hlist : list_ascii_of_string ("```json" ++ newline ++ body ++ "```")
                  = ("`" :: "`" :: "`" :: "j" :: "s" :: "o" :: "n"
                     :: ascii_of_nat 10 :: b ++ closing)%char).
  { rewrite !list_ascii_of_string_app. reflexivity. }
  assert (Hshape : ("`" :: "`" :: "`" :: "j" :: "s" :: "o" :: "n"
                     :: ascii_of_nat 10 :: b ++ closing)%char
                   = ("`" :: ("`" :: "`" :: "j" :: "s" :: "o" :: "n"
                     :: ascii_of_nat 10 :: b ++ ["`"; "`"]) ++ ["`"])%char).
  { cbn [app]. do 8 f_equal. unfold closing.
    change ["`"; "`"; "`"]%char with (["`"; "`"] ++ ["`"])%char.
    now rewrite app_assoc. }
  assert (Hjson : forall c s', Ascii.eqb backtick c = false ->
            RegExp.run fence_json (c :: s') [] (fun s1 _ => Some s1) = None)
    by (intros c s' Hc; apply (fence_needs_backtick c s' _ Hc)).
  assert (Hfence : forall c s', Ascii.eqb backtick c = false ->
            RegExp.run fence (c :: s') [] (fun s1 _ => Some s1) = None)
    by (intros c s' Hc; apply (fence_needs_backtick c s' _ Hc)).
  unfold strip_fences, JsString.trim. rewrite Hlist, Hshape.
  rewrite trim_chars_id by reflexivity. rewrite <- Hshape.
  unfold RegExp.remove_all.
  rewrite !list_ascii_of_string_of_list_ascii.
  (* first pass: the opening fence goes, the closing one stays *)
  assert (Hfirst :
    RegExp.remove_all_from fence_json
      (List.length ("`" :: "`" :: "`" :: "j" :: "s" :: "o" :: "n"
                     :: ascii_of_nat 10 :: b ++ closing)%char)
      ("`" :: "`" :: "`" :: "j" :: "s" :: "o" :: "n"
         :: ascii_of_nat 10 :: b ++ closing)%char
    = b ++ closing).
  { cbn [List.length].
    rewrite (remove_all_step fence_json _ _ _ (b ++ closing)
               (fence_json_opens (b ++ closing)))
      by (cbn [List.length]; lia).
    rewrite length_app.
    replace (S (S (S (S (S (S (S (List.length b + List.length closing))))))))
      with (List.length b + 10) by (cbn; lia).
    rewrite (remove_all_copies_front fence_json b closing Hjson Hfree).
    reflexivity. }
  rewrite !Hfirst.
  rewrite length_app.
  rewrite (remove_all_copies_front fence b closing Hfence Hfree).
  change (RegExp.remove_all_from fence (List.length closing) closing)
    with (@nil ascii).
  rewrite app_nil_r. apply string_list_roundtrip.
Qed.

Lemma strip_fences_unwraps_witness :
  strip_fences ("```json" ++ newline ++ "{}" ++ "```") = "{}".
Proof.
  apply strip_fences_unwraps. unfold fence_free. cbn. repeat constructor.
Defined.

(** ** The Worker *)

Lemma worker_fetch_instance req p ns name :
  snd (worker_fetch req p ns) name =
    if reaches name req then snd (fetch req p (ns name)) else ns name.
Proof.
  unfold worker_fetch, reaches.
  destruct (String.eqb (method req) "OPTIONS"); [reflexivity |].
  destruct (String.prefix "/api/user/" (path req)); [| reflexivity].
  cbn [negb andb]. rewrite String.eqb_sym.
  destruct (fetch req p (ns (instance_name req))) as [[r | e] ag'] eqn:Hrun;
    cbn [snd]; unfold update;
    destruct (String.eqb name (instance_name req)) eqn:Hname;
    try reflexivity;
    apply String.eqb_eq in Hname; subst name; now rewrite Hrun.
Qed.

(** X20: over any traffic, an instance of the namespace ends as if it
    had handled only the requests the Worker hands to it, in their order:
    preflight requests, requests outside [/api/user/] and requests for
    other users leave it as it is. *)
Theorem worker_isolates_instances (p : Platform) (ns : Namespace)
    (reqs : list Request) (name : string) :
  worker_run p ns reqs name =
    after_events p (ns name) (map Handle (filter (reaches name) reqs)).
Proof.
  unfold worker_run, after_events. revert ns.
  induction reqs as [| req reqs IH]; intros ns; [reflexivity |].
  cbn [fold_left filter]. rewrite IH, worker_fetch_instance.
  destruct (reaches name req); reflexivity.
Qed.

(** X21: a request without [userId] goes to the instance named [demo],
    and a fresh instance then stores the user id [default]; the instance
    named [default] is not touched. *)
Theorem worker_default_user (req : Request) (p : Platform) (ns : Namespace) :
  userId_param req = None \/ userId_param req = Some "" ->
  method req <> "OPTIONS" ->
  String.prefix "/api/user/" (path req) = true ->
  storage (ns "demo") = None ->
  userId (state (snd (worker_fetch req p ns) "demo")) = "default"
  /\ (exists st, storage (snd (worker_fetch req p ns) "demo") = Some st
                 /\ userId st = "default")
  /\ snd (worker_fetch req p ns) "default" = ns "default".
Proof.
  intros Hparam Hmethod Hprefix Hfresh.
  assert (Hname : instance_name req = "demo")
    by (unfold instance_name; destruct Hparam as [H | H]; now rewrite H).
  assert (Huser : request_user req = "default")
    by (unfold request_user; destruct Hparam as [H | H]; now rewrite H).
  apply String.eqb_neq in Hmethod.
  rewrite !worker_fetch_instance. unfold reaches.
  rewrite Hmethod, Hprefix, Hname. cbn [negb andb].
  change (String.eqb "demo" "demo") with true.
  change (String.eqb "demo" "default") with false. cbv iota.
  destruct (fetch req p (ns "demo")) as [r ag'] eqn:Hrun. cbn [snd].
  destruct (fetch_effect req p (ns "demo") r ag' Hrun)
    as [added [_ [_ [_ [_ [Huid [_ Hsync]]]]]]].
  rewrite Huser in Huid. unfold initialized in Huid. rewrite Hfresh in Huid.
  cbn in Huid.
  split; [exact Huid | split; [| reflexivity]].
  exists (state ag'). split; [exact Hsync | exact Huid].
Qed.

Lemma worker_default_user_witness :
  userId (state (snd (worker_fetch
                        {| path := "/api/user/expenses"; method := "GET";
                           userId_param := None; payload := NoPayload |}
                        Sample.offline (fun _ => Sample.new_agent)) "demo"))
    = "default".
Proof.
  apply (worker_default_user
           {| path := "/api/user/expenses"; method := "GET";
              userId_param := None; payload := NoPayload |}
           Sample.offline (fun _ => Sample.new_agent)).
  - now left.
  - discriminate.
  - reflexivity.
  - reflexivity.
Defined.

(** X22: a response of the Worker carries the three CORS headers exactly
    when the request is a preflight or its path starts with
    [/api/user/]; the Worker's own [Not Found] carries none. For a request
    under [/api/user/] that is no preflight, the status, the body and the
    content type are those of the agent's response. *)
Theorem worker_cors (req : Request) (p : Platform) (ns ns' : Namespace)
    (resp : WorkerResponse) :
  worker_fetch req p ns = (Ok resp, ns') ->
  ((Headers.get "Access-Control-Allow-Origin" (headers resp) = Some "*"
    /\ Headers.get "Access-Control-Allow-Methods" (headers resp)
       = Some "GET, POST, OPTIONS"
    /\ Headers.get "Access-Control-Allow-Headers" (headers resp)
       = Some "Content-Type")
   <-> (method req = "OPTIONS"
        \/ String.prefix "/api/user/" (path req) = true))
  /\ (Headers.get "Access-Control-Allow-Origin" (headers resp) = None
      <-> (method req <> "OPTIONS"
           /\ String.prefix "/api/user/" (path req) = false))
  /\ (method req <> "OPTIONS" ->
      String.prefix "/api/user/" (path req) = true ->
      exists r ag',
        fetch req p (ns (instance_name req)) = (Ok r, ag')
        /\ status resp = status (response_of r)
        /\ body resp = body (response_of r)
        /\ Headers.get "Content-Type" (headers resp)
           = Headers.get "Content-Type" (headers (response_of r))).
Proof.
  unfold worker_fetch.
  destruct (String.eqb (method req) "OPTIONS") eqn:Hmethod.
  - apply String.eqb_eq in Hmethod. intros H. inversion H; subst resp ns'.
    split; [| split].
    + split; [intros _; now left | intros _; repeat split].
    + split; [discriminate | intros [Hno _]; contradiction].
    + intros Hno; contradiction.
  - apply String.eqb_neq in Hmethod.
    destruct (String.prefix "/api/user/" (path req)) eqn:Hprefix.
    + destruct (fetch req p (ns (instance_name req))) as [[r | e] ag'];
        [| discriminate].
      intros H. inversion H; subst resp ns'.
      split; [| split].
      * split; [intros _; now right |].
        intros _. destruct r; repeat split.
      * split; [destruct r; discriminate | intros [_ Hno]; discriminate].
      * intros _ _. exists r, ag'. destruct r; repeat split.
    + intros H. inversion H; subst resp ns'.
      split; [| split].
      * split; [intros [Hget _]; discriminate Hget |].
        intros [Hm | Hp]; [contradiction | discriminate].
      * split; [intros _; now split | reflexivity].
      * intros _ Hp; discriminate.
Qed.

Lemma worker_cors_witness :
  Headers.get "Access-Control-Allow-Origin"
    (headers {| status := 404;
                headers := [("content-type", "text/plain;charset=UTF-8")];
                body := Plain "Not Found" |}) = None.
Proof.
  apply (worker_cors
           {| path := "/health"; method := "GET"; userId_param := None;
              payload := NoPayload |}
           Sample.offline (fun _ => Sample.new_agent)
           (fun _ => Sample.new_agent)
           {| status := 404;
              headers := [("content-type", "text/plain;charset=UTF-8")];
              body := Plain "Not Found" |} eq_refl).
  split; [discriminate | reflexivity].
Defined.
